(** * AC monitoring dashboard: the [ACMonitorApp] controller of [script.js]

    A shallow embedding of the class [ACMonitorApp] and of the part of the
    browser it talks to (element lookup, the [className] and [innerText]
    setters, [getAttribute], listener registration and dispatch), followed
    by the properties of the connection indicator. *)

From Stdlib Require Import Ascii.
From stdpp Require Import base option strings list gmap.

(** ** The page *)

(** A JavaScript value as the program handles it on the right of an
    assignment to [innerText]: a string literal, or the result of
    [getAttribute], which is [null] for an attribute that is not there. *)
Inductive Value :=
  | Null
  | Str (s : string).

(** An element: its attributes (among them [id], [class] and [data-val])
    and the text last written to it.  The elements listed are those of
    the page as the script finds it, each named by its position there
    (document order).  Nesting is not modelled: [innerText] is the text
    an element reads back after its own last write, which a write to
    another element does not change.  The real setter also replaces the
    children of the element written to: a child element is taken off the
    page but stays listed here, as the handle the controller holds to it
    stays valid, and the line breaks the setter creates for line feeds
    are not listed. *)
Record Element := mkElement {
  attributes : gmap string string;
  innerText : string
}.

Definition getAttribute (name : string) (el : Element) : Value :=
  match attributes el !! name with
  | Some s => Str s
  | None => Null
  end.

(** [className] reflects the [class] attribute. *)
Definition className (el : Element) : string :=
  default "" (attributes el !! "class").

Definition set_className (s : string) (el : Element) : Element :=
  mkElement (<["class" := s]> (attributes el)) (innerText el).

(** The [innerText] attribute is declared
    [[LegacyNullToEmptyString] DOMString] in the HTML standard: the setter
    turns [null] into the empty string, and takes a string as it is. *)
Definition to_DOMString (v : Value) : string :=
  match v with
  | Null => ""
  | Str s => s
  end.

Definition set_innerText (v : Value) (el : Element) : Element :=
  mkElement (attributes el) (to_DOMString v).

(** The class list of an element: its [class] attribute split at ASCII
    whitespace (tab, line feed, form feed, carriage return, space). *)
Definition ascii_whitespace (c : ascii) : bool :=
  match c with
  | "009" | "010" | "012" | "013" | " " => true
  | _ => false
  end%char.

Fixpoint tokens_from (cur : string) (s : string) : list string :=
  match s with
  | "" => if decide (cur = "") then [] else [cur]
  | String c s' =>
      if ascii_whitespace c
      then (if decide (cur = "") then [] else [cur]) ++ tokens_from "" s'
      else tokens_from (cur +:+ String c "") s'
  end.

Definition tokens (s : string) : list string := tokens_from "" s.

Definition classList (el : Element) : list string := tokens (className el).

Definition has_class (c : string) (el : Element) : bool :=
  bool_decide (c ∈ classList el).

Inductive ReadyState := loading | interactive | complete.

Global Instance ReadyState_eq_dec : EqDecision ReadyState.
Proof. solve_decision. Defined.

(** The two functions the program registers as listeners:
    [this.handleIndicatorClick.bind(this)] and [() => this.updateUI()].
    Both close over the one controller object. *)
Inductive Listener := BoundHandleIndicatorClick | ArrowUpdateUI.

Record Document := mkDocument {
  nodes : list Element;
  readyState : ReadyState;
  (* listeners of the document's own DOMContentLoaded event, oldest first *)
  contentLoadedListeners : list Listener;
  (* click listeners, each with the node it was added to, oldest first *)
  clickListeners : list (nat * Listener)
}.

(** [document.getElementById]: the first element, in document order, whose
    [id] attribute is the given one; [null] when there is none. *)
Definition getElementById (id : string) (d : Document) : option nat :=
  fst <$> list_find (λ el, attributes el !! "id" = Some id) (nodes d).

(** [document.querySelectorAll('.c')]: the elements that carry class [c],
    in document order.  The list is static: it is not recomputed when
    classes change afterwards. *)
Definition querySelectorAll_class (c : string) (d : Document) : list nat :=
  fst <$> filter (λ p : nat * Element, c ∈ classList p.2) (imap pair (nodes d)).

(** ** The controller object *)

Record ACMonitorApp := mkApp {
  isConnected : bool;
  indicatorBtn : option nat;
  indicatorIcon : option nat;
  indicatorText : option nat;
  pulseRing : option nat;
  sensorValues : list nat
}.

(** Entries of the call log, which records every entry into [updateUI]
    and [handleIndicatorClick].  The log is not program state: nothing
    reads it; it is there to count calls. *)
Inductive Call := CallUpdateUI | CallHandleIndicatorClick.

Global Instance Call_eq_dec : EqDecision Call.
Proof. solve_decision. Defined.

Record World := mkWorld {
  this : ACMonitorApp;
  document : Document;
  calls : list Call
}.

(** ** Computations: state and exceptions *)

Inductive Exception := TypeError.

Inductive Completion (A : Type) :=
  | Normal (a : A)
  | Throw (e : Exception).
Global Arguments Normal {A} a.
Global Arguments Throw {A} e.

(** A method body: it runs in a world and either returns or throws; what
    it had written before throwing stays written. *)
Definition JS (A : Type) : Type := World → Completion A * World.

Global Instance JS_ret : MRet JS := λ A a w, (Normal a, w).

Global Instance JS_bind : MBind JS := λ A B f m w,
  match m w with
  | (Normal a, w') => f a w'
  | (Throw e, w') => (Throw e, w')
  end.

(** The same world with other nodes, other DOMContentLoaded listeners,
    other click listeners, in another ready state. *)
Definition with_nodes (f : list Element → list Element) (w : World) : World :=
  mkWorld (this w)
    (mkDocument (f (nodes (document w))) (readyState (document w))
       (contentLoadedListeners (document w)) (clickListeners (document w)))
    (calls w).

Definition with_contentLoaded (cl : list Listener) (w : World) : World :=
  mkWorld (this w)
    (mkDocument (nodes (document w)) (readyState (document w)) cl
       (clickListeners (document w)))
    (calls w).

Definition with_click (kl : list (nat * Listener)) (w : World) : World :=
  mkWorld (this w)
    (mkDocument (nodes (document w)) (readyState (document w))
       (contentLoadedListeners (document w)) kl)
    (calls w).

Definition with_readyState (state : ReadyState) (w : World) : World :=
  mkWorld (this w)
    (mkDocument (nodes (document w)) state
       (contentLoadedListeners (document w)) (clickListeners (document w)))
    (calls w).

(** The controller with another connection state, the handles kept. *)
Definition set_isConnected (c : bool) (a : ACMonitorApp) : ACMonitorApp :=
  mkApp c (indicatorBtn a) (indicatorIcon a) (indicatorText a)
    (pulseRing a) (sensorValues a).

(** [this.f] *)
Definition read {A} (f : ACMonitorApp → A) : JS A :=
  λ w, (Normal (f (this w)), w).

(** [this.isConnected = c] *)
Definition write_isConnected (c : bool) : JS unit :=
  λ w, (Normal (), mkWorld (set_isConnected c (this w)) (document w) (calls w)).

Definition log (c : Call) : JS unit :=
  λ w, (Normal (), mkWorld (this w) (document w) (calls w ++ [c])).

(** [h.p = v] for a property [p] of an element: a [TypeError] when [h] is
    [null], the property written otherwise. *)
Definition assign (h : option nat) (set : Element → Element) : JS unit :=
  λ w, match h with
       | None => (Throw TypeError, w)
       | Some n => (Normal (), with_nodes (alter set n) w)
       end.

(** [el.getAttribute(name)] on an element of a node list. *)
Definition call_getAttribute (el : nat) (name : string) : JS Value :=
  λ w, (Normal (from_option (getAttribute name) Null (nodes (document w) !! el)), w).

(** [list.forEach(f)] *)
Fixpoint forEach (l : list nat) (f : nat → JS unit) : JS unit :=
  match l with
  | [] => mret ()
  | el :: l' => f el;; forEach l' f
  end.

(** [h.addEventListener('click', l)] and
    [document.addEventListener('DOMContentLoaded', l)] *)
Definition addClickListener (h : nat) (l : Listener) : JS unit :=
  λ w, (Normal (), with_click (clickListeners (document w) ++ [(h, l)]) w).

Definition addContentLoadedListener (l : Listener) : JS unit :=
  λ w, (Normal (),
        with_contentLoaded (contentLoadedListeners (document w) ++ [l]) w).

(** [document.readyState] *)
Definition read_readyState : JS ReadyState :=
  λ w, (Normal (readyState (document w)), w).

(** ** The methods of [ACMonitorApp] *)

Definition online_style : string :=
  "group relative flex items-center gap-1 sm:gap-1.5 rounded-full px-2.5 sm:px-3 py-1 transition-all duration-300 ease-out hover:scale-105 active:scale-95 shadow-lg bg-gradient-to-r from-emerald-500 to-emerald-400 shadow-emerald-900/40 ring-1 ring-white/10".

Definition offline_style : string :=
  "group relative flex items-center gap-1 sm:gap-1.5 rounded-full px-2.5 sm:px-3 py-1 transition-all duration-300 ease-out hover:scale-105 active:scale-95 shadow-lg bg-gradient-to-r from-rose-600 to-red-500 shadow-rose-900/40 ring-1 ring-white/10".

Definition pulse_style : string :=
  "absolute -inset-1 -z-10 rounded-full bg-red-500 opacity-20 animate-ping".

Definition updateUI : JS unit :=
  log CallUpdateUI;;
  connected ← read isConnected;
  if (connected : bool) then
    btn ← read indicatorBtn;
    assign btn (set_className online_style);;
    icon ← read indicatorIcon;
    assign icon (set_innerText (Str "wifi"));;
    text ← read indicatorText;
    assign text (set_innerText (Str "Online"));;
    ring ← read pulseRing;
    assign ring (set_className "hidden");;
    sensors ← read sensorValues;
    forEach sensors (λ el,
      v ← call_getAttribute el "data-val";
      assign (Some el) (set_innerText v))
  else
    btn ← read indicatorBtn;
    assign btn (set_className offline_style);;
    icon ← read indicatorIcon;
    assign icon (set_innerText (Str "wifi_off"));;
    text ← read indicatorText;
    assign text (set_innerText (Str "Offline"));;
    ring ← read pulseRing;
    assign ring (set_className pulse_style);;
    sensors ← read sensorValues;
    forEach sensors (λ el, assign (Some el) (set_innerText (Str "0"))).

Definition handleIndicatorClick : JS unit :=
  log CallHandleIndicatorClick;;
  connected ← read isConnected;
  write_isConnected (negb connected);;
  updateUI.

Definition setupEventListeners : JS unit :=
  btn ← read indicatorBtn;
  match btn with
  | Some b => addClickListener b BoundHandleIndicatorClick
  | None => mret ()
  end.

Definition initialize : JS unit :=
  state ← read_readyState;
  if decide (state = loading)
  then addContentLoadedListener ArrowUpdateUI
  else updateUI.

(** The fields as the constructor fills them in, before it calls
    [setupEventListeners] and [initialize]. *)
Definition new_app (d : Document) : ACMonitorApp :=
  mkApp false
    (getElementById "indicatorBtn" d)
    (getElementById "indicatorIcon" d)
    (getElementById "indicatorText" d)
    (getElementById "pulseRing" d)
    (querySelectorAll_class "sensor-val" d).

(** [new ACMonitorApp()] on a page. *)
Definition constructor (d : Document) : Completion unit * World :=
  (setupEventListeners;; initialize) (mkWorld (new_app d) d []).

(** ** Events *)

Definition invoke (l : Listener) : JS unit :=
  match l with
  | BoundHandleIndicatorClick => handleIndicatorClick
  | ArrowUpdateUI => updateUI
  end.

(** The browser calls the listeners of an event one after the other; an
    exception thrown by one is reported and the next one still runs. *)
Definition run_listeners (ls : list Listener) (w : World) : World :=
  foldl (λ w l, (invoke l w).2) w ls.

(** A click event reaching node [n]: the click listeners added to [n]
    itself run, oldest first.  A click of the user reaches the element
    clicked and then, bubbling, each of its ancestors in turn: see
    [dispatch_click]. *)
Definition click (n : nat) (w : World) : World :=
  run_listeners
    (snd <$> filter (λ p : nat * Listener, p.1 = n) (clickListeners (document w)))
    w.

(** The page has been parsed.  The browser does this once: the document
    leaves [loading] and DOMContentLoaded is fired. *)
Definition fire_DOMContentLoaded (w : World) : World :=
  if decide (readyState (document w) = loading)
  then run_listeners (contentLoadedListeners (document w))
         (with_readyState interactive w)
  else w.

(** [render()] and [toggle()] as calls of their own: the world they leave,
    whether they returned or threw. *)
Definition render (w : World) : World := (updateUI w).2.
Definition toggle (w : World) : World := (handleIndicatorClick w).2.

(** A page on which no script has run yet: it has no listeners. *)
Definition fresh_page (ns : list Element) (state : ReadyState) : Document :=
  mkDocument ns state [] [].

(** The state of the page once the controller has been built and the
    page has been parsed, whichever came first. *)
Definition startup (d : Document) : World :=
  fire_DOMContentLoaded (constructor d).2.

(** What can happen to a running page: the methods called directly, a
    click on a node, the end of parsing. *)
Inductive Op :=
  | OpRender
  | OpInitialize
  | OpToggle
  | OpClick (n : nat)
  | OpContentLoaded.

Definition step (w : World) (op : Op) : World :=
  match op with
  | OpRender => render w
  | OpInitialize => (initialize w).2
  | OpToggle => toggle w
  | OpClick n => click n w
  | OpContentLoaded => fire_DOMContentLoaded w
  end.

Definition run (ops : list Op) (w : World) : World := foldl step w ops.

(** ** Reading the page *)

Definition text_of (w : World) (k : nat) : option string :=
  innerText <$> nodes (document w) !! k.
Definition class_of (w : World) (k : nat) : option string :=
  className <$> nodes (document w) !! k.
Definition data_val (w : World) (k : nat) : option Value :=
  getAttribute "data-val" <$> nodes (document w) !! k.

(** What the four single surfaces show. *)
Definition button_class (w : World) : option string :=
  indicatorBtn (this w) ≫= class_of w.
Definition icon_text (w : World) : option string :=
  indicatorIcon (this w) ≫= text_of w.
Definition label_text (w : World) : option string :=
  indicatorText (this w) ≫= text_of w.
Definition pulse_class (w : World) : option string :=
  pulseRing (this w) ≫= class_of w.

(** The ring is hidden when its class list has [hidden]. *)
Definition pulse_hidden (w : World) : option bool :=
  pulseRing (this w) ≫= λ k, has_class "hidden" <$> nodes (document w) !! k.

(** ** Handles *)

Definition bound (h : option nat) : bool :=
  match h with Some _ => true | None => false end.

Definition hits (h : option nat) (k : nat) : bool := bool_decide (h = Some k).

Definition all_bound (a : ACMonitorApp) : bool :=
  bound (indicatorBtn a) && bound (indicatorIcon a)
  && bound (indicatorText a) && bound (pulseRing a).

Definition in_page (w : World) (h : option nat) : bool :=
  match h with
  | Some n => bool_decide (n < length (nodes (document w)))
  | None => true
  end.

(** The four single surfaces are bound, and every handle points into the
    page. *)
Definition well_bound (w : World) : bool :=
  all_bound (this w)
  && in_page w (indicatorBtn (this w)) && in_page w (indicatorIcon (this w))
  && in_page w (indicatorText (this w)) && in_page w (pulseRing (this w))
  && forallb (λ k, in_page w (Some k)) (sensorValues (this w)).

(** The icon and the label are two elements, neither of them a sensor
    display. *)
Definition surfaces_apart (a : ACMonitorApp) : bool :=
  bool_decide (indicatorIcon a ≠ indicatorText a)
  && forallb (λ k, negb (hits (indicatorIcon a) k) && negb (hits (indicatorText a) k))
       (sensorValues a).

(** The ring is the one single surface that is not bound. *)
Definition ring_missing (w : World) : bool :=
  bound (indicatorBtn (this w)) && bound (indicatorIcon (this w))
  && bound (indicatorText (this w)) && negb (bound (pulseRing (this w)))
  && in_page w (indicatorBtn (this w)) && in_page w (indicatorIcon (this w))
  && in_page w (indicatorText (this w)).

(** The listeners a page holds when nothing but [ACMonitorApp] has
    registered any: the click listener on the indicator button, and
    deferred renders. *)
Definition button_listener (a : ACMonitorApp) : list (nat * Listener) :=
  match indicatorBtn a with
  | Some b => [(b, BoundHandleIndicatorClick)]
  | None => []
  end.

Definition own_listeners (w : World) : Prop :=
  clickListeners (document w) = button_listener (this w)
  ∧ Forall (λ l, l = ArrowUpdateUI) (contentLoadedListeners (document w)).

(** An operation that is a toggle: a direct call, or a click on the
    indicator button. *)
Definition is_toggle (a : ACMonitorApp) (op : Op) : bool :=
  match op with
  | OpToggle => true
  | OpClick n => hits (indicatorBtn a) n
  | _ => false
  end.

(** The number of toggles among some operations. *)
Definition toggles (a : ACMonitorApp) (ops : list Op) : nat :=
  length (filter (λ op, is_toggle a op = true) ops).

(** ** What one call of [updateUI] writes, element by element *)

(** The presentation table, by connection state. *)
Definition style (connected : bool) : string :=
  if connected then online_style else offline_style.
Definition glyph (connected : bool) : string :=
  if connected then "wifi" else "wifi_off".
Definition label (connected : bool) : string :=
  if connected then "Online" else "Offline".
Definition ring_class (connected : bool) : string :=
  if connected then "hidden" else pulse_style.

(** Where a written text comes from: a literal, or the element's own
    [data-val] attribute. *)
Inductive TextSource := Literal (s : string) | DataVal.

(** The net effect of a run of writes on one element: the last class
    written, if any, and the last text written, if any. *)
Record Patch := mkPatch {
  patch_class : option string;
  patch_text : option TextSource
}.

Definition apply_patch (p : Patch) (el : Element) : Element :=
  mkElement
    (match patch_class p with
     | Some s => <["class" := s]> (attributes el)
     | None => attributes el
     end)
    (match patch_text p with
     | Some (Literal s) => s
     | Some DataVal => to_DOMString (getAttribute "data-val" el)
     | None => innerText el
     end).

Definition sensor_source (connected : bool) : TextSource :=
  if connected then DataVal else Literal "0".

Definition sensor_write (connected : bool) : Element → Element :=
  apply_patch (mkPatch None (Some (sensor_source connected))).

(** [updateUI] writes in a fixed order (button, icon, label, ring,
    sensors) and stops at the first handle that is [null]: a write happens
    when every handle before it is bound, and the last write to a property
    of an element is the one that stays. *)
Definition class_written (a : ACMonitorApp) (k : nat) : option string :=
  if bound (indicatorBtn a) && bound (indicatorIcon a)
     && bound (indicatorText a) && hits (pulseRing a) k
  then Some (ring_class (isConnected a))
  else if hits (indicatorBtn a) k then Some (style (isConnected a))
  else None.

Definition text_written (a : ACMonitorApp) (k : nat) : option TextSource :=
  if all_bound a && bool_decide (k ∈ sensorValues a)
  then Some (sensor_source (isConnected a))
  else if bound (indicatorBtn a) && bound (indicatorIcon a)
          && hits (indicatorText a) k
  then Some (Literal (label (isConnected a)))
  else if bound (indicatorBtn a) && hits (indicatorIcon a) k
  then Some (Literal (glyph (isConnected a)))
  else None.

Definition rendered (a : ACMonitorApp) (k : nat) (el : Element) : Element :=
  apply_patch (mkPatch (class_written a k) (text_written a k)) el.

(** The world one call of [updateUI] leaves, as [updateUI_spec] shows. *)
Definition rendered_world (w : World) : World :=
  mkWorld (this w)
    (mkDocument (imap (rendered (this w)) (nodes (document w)))
       (readyState (document w)) (contentLoadedListeners (document w))
       (clickListeners (document w)))
    (calls w ++ [CallUpdateUI]).

(** The world [handleIndicatorClick] hands to [updateUI]. *)
Definition flipped (w : World) : World :=
  mkWorld (set_isConnected (negb (isConnected (this w))) (this w))
    (document w) (calls w ++ [CallHandleIndicatorClick]).

(** A patch [q] followed by a patch [p] that writes every property [q]
    wrote leaves what [p] alone leaves. *)
Definition writes_where {A B} (x : option A) (y : option B) : bool :=
  match x, y with
  | None, Some _ => false
  | _, _ => true
  end.

Definition covers (p q : Patch) : bool :=
  writes_where (patch_class p) (patch_class q)
  && writes_where (patch_text p) (patch_text q).

(** ** An example page *)

(** The four single surfaces, a sensor display with a reading, and one
    without. *)
Definition element (atts : list (string * string)) (text : string) : Element :=
  mkElement (list_to_map atts) text.

Definition sample_nodes : list Element :=
  [ element [("id", "indicatorBtn")] "";
    element [("id", "indicatorIcon"); ("class", "material-icons")] "";
    element [("id", "indicatorText")] "";
    element [("id", "pulseRing")] "";
    element [("class", "sensor-val text-xl"); ("data-val", "23.5")] "--";
    element [("class", "sensor-val")] "--" ].

Definition sample_page (state : ReadyState) : Document :=
  fresh_page sample_nodes state.

(** The same page without the element [pulseRing], and without the
    element [indicatorBtn]. *)
Definition page_without_ring (state : ReadyState) : Document :=
  fresh_page (take 3 sample_nodes ++ drop 4 sample_nodes) state.

Definition page_without_button (state : ReadyState) : Document :=
  fresh_page (drop 1 sample_nodes) state.

(** The controller on the example page, parsed, in either state. *)
Definition sample_world (connected : bool) : World :=
  mkWorld (mkApp connected (Some 0) (Some 1) (Some 2) (Some 3) [4; 5])
    (sample_page complete) [].

(** ** More ways to read the page and the controller *)

(** A click of the user on an element, given by its propagation path: the
    element clicked first, then its ancestors up to the root.  The
    program never stops the propagation. *)
Definition dispatch_click (path : list nat) (w : World) : World :=
  foldl (λ w n, click n w) w path.

(** The value of attribute [name] of element [k]: [None] when there is no
    element [k], [Some None] when the element has no such attribute. *)
Definition attribute_of (w : World) (k : nat) (name : string)
    : option (option string) :=
  (λ el, attributes el !! name) <$> nodes (document w) !! k.

(** The five handles the constructor caches. *)
Definition handles (a : ACMonitorApp)
    : option nat * option nat * option nat * option nat * list nat :=
  (indicatorBtn a, indicatorIcon a, indicatorText a, pulseRing a,
   sensorValues a).

(** ** Lemmas on elements and patches *)

Lemma apply_patch_none el : apply_patch (mkPatch None None) el = el.
Proof. by destruct el. Qed.

Lemma getAttribute_apply_patch p el :
  getAttribute "data-val" (apply_patch p el) = getAttribute "data-val" el.
Proof.
  unfold getAttribute, apply_patch; simpl.
  destruct (patch_class p); [|done].
  by rewrite lookup_insert_ne.
Qed.

Lemma apply_patch_covers p q el :
  covers p q = true → apply_patch p (apply_patch q el) = apply_patch p el.
Proof.
  destruct p as [pc pt], q as [qc qt]; unfold covers; simpl.
  intros [Hc Ht]%andb_true_iff.
  unfold apply_patch at 1 3; simpl. f_equal.
  - destruct pc, qc; simpl in *; try done.
    by rewrite insert_insert_eq.
  - destruct pt as [[|]|], qt as [[|]|]; simpl in *; try done;
      by rewrite getAttribute_apply_patch.
Qed.

Lemma apply_patch_idem p el : apply_patch p (apply_patch p el) = apply_patch p el.
Proof. apply apply_patch_covers. by destruct p as [[] []]. Qed.

(** ** [forEach] over the sensor displays *)

Lemma forEach_ext (f g : nat → JS unit) l w :
  (∀ el w', f el w' = g el w') → forEach l f w = forEach l g w.
Proof.
  intros Hfg. revert w. induction l as [|el l IH]; intros w; [done|].
  simpl. unfold mbind, JS_bind. rewrite Hfg.
  destruct (g el w) as [[[]|e] w']; [apply IH | done].
Qed.

Lemma forEach_assign (f : Element → Element) l w :
  forEach l (λ el, assign (Some el) f) w
  = (Normal (), with_nodes (λ ns, foldl (λ ns el, alter f el ns) ns l) w).
Proof.
  revert w. induction l as [|el l IH]; intros w.
  - by destruct w as [a [] cs].
  - simpl. unfold mbind, JS_bind; simpl. rewrite IH.
    by destruct w as [a [] cs].
Qed.

(** Reading [data-val] and then writing it is one write whose text comes
    from the element itself. *)
Lemma read_then_write el w :
  (v ← call_getAttribute el "data-val"; assign (Some el) (set_innerText v)) w
  = assign (Some el) (sensor_write true) w.
Proof.
  unfold mbind, JS_bind, call_getAttribute, assign; simpl.
  f_equal. unfold with_nodes. do 2 f_equal.
  apply list_eq; intros k. rewrite !list_lookup_alter.
  case_decide as Hk; [subst k|done].
  by destruct (nodes (document w) !! el).
Qed.

Lemma foldl_alter_lookup (f : Element → Element) l (ns : list Element) k :
  (∀ el, f (f el) = f el) →
  foldl (λ ns el, alter f el ns) ns l !! k
  = (if bool_decide (k ∈ l) then f else id) <$> ns !! k.
Proof.
  intros Hf. revert ns. induction l as [|el l IH]; intros ns; simpl.
  - by destruct (ns !! k).
  - rewrite IH, list_lookup_alter.
    destruct (decide (el = k)) as [->|Hne].
    + rewrite (bool_decide_eq_true_2 (k ∈ k :: l)) by left.
      destruct (ns !! k) as [e|]; simpl; [|done].
      case_bool_decide; simpl; by rewrite ?Hf.
    + rewrite (bool_decide_ext (k ∈ el :: l) (k ∈ l)); [done|].
      rewrite elem_of_cons. split; [intros [?|?]; [congruence|done] | by right].
Qed.

(** ** [updateUI], in full *)

Lemma alter_lookup_hits (f : Element → Element) h (ns : list Element) k :
  alter f h ns !! k = (if hits (Some h) k then f else id) <$> ns !! k.
Proof.
  rewrite list_lookup_alter. unfold hits.
  destruct (decide (h = k)) as [->|Hne].
  - by rewrite bool_decide_eq_true_2.
  - rewrite bool_decide_eq_false_2 by congruence. by destruct (ns !! k).
Qed.

Local Ltac lookup_cases k :=
  rewrite ?foldl_alter_lookup by (by intros []);
  rewrite ?alter_lookup_hits;
  unfold rendered, class_written, text_written, all_bound, bound;
  cbn -[hits]; change (hits None k) with false; cbn -[hits];
  match goal with
  | |- context [?ns !! k] => destruct (ns !! k) as [[atts txt]|]; [|done]
  end;
  repeat match goal with
         | |- context [hits ?h k] => destruct (hits h k)
         | |- context [bool_decide ?P] => destruct (bool_decide P)
         end;
  unfold sensor_write, apply_patch, set_className, set_innerText, getAttribute;
  simpl; rewrite ?insert_insert_eq, ?lookup_insert_ne by done; done.

Lemma updateUI_lookup w k :
  nodes (document (updateUI w).2) !! k
  = rendered (this w) k <$> nodes (document w) !! k.
Proof.
  destruct w as [[c b i t r s] [ns rs cl kl] cs].
  unfold updateUI, mbind, JS_bind, log, read; simpl.
  destruct c, b as [b|], i as [i|], t as [t|], r as [r|]; simpl;
    rewrite ?(forEach_ext _ _ _ _ read_then_write), ?forEach_assign; simpl;
    lookup_cases k.
Qed.

Lemma updateUI_frame w :
  (updateUI w).1 = (if all_bound (this w) then Normal () else Throw TypeError)
  ∧ this (updateUI w).2 = this w
  ∧ readyState (document (updateUI w).2) = readyState (document w)
  ∧ contentLoadedListeners (document (updateUI w).2)
    = contentLoadedListeners (document w)
  ∧ clickListeners (document (updateUI w).2) = clickListeners (document w)
  ∧ calls (updateUI w).2 = calls w ++ [CallUpdateUI].
Proof.
  destruct w as [[c b i t r s] [ns rs cl kl] cs].
  unfold updateUI, mbind, JS_bind, log, read; simpl.
  destruct c, b as [b|], i as [i|], t as [t|], r as [r|]; simpl;
    by rewrite ?(forEach_ext _ _ _ _ read_then_write), ?forEach_assign.
Qed.

Lemma updateUI_spec w :
  updateUI w
  = (if all_bound (this w) then Normal () else Throw TypeError, rendered_world w).
Proof.
  pose proof (updateUI_frame w) as (Hc & Ha & Hrs & Hcl & Hkl & Hcs).
  pose proof (updateUI_lookup w) as Hns.
  destruct (updateUI w) as [c [a [ns rs cl kl] cs]]; simpl in *.
  unfold rendered_world. subst. do 3 f_equal.
  apply list_eq; intros k. by rewrite Hns, list_lookup_imap.
Qed.

Lemma render_eq w : render w = rendered_world w.
Proof. unfold render. by rewrite updateUI_spec. Qed.

Lemma rendered_world_lookup w k :
  nodes (document (rendered_world w)) !! k
  = rendered (this w) k <$> nodes (document w) !! k.
Proof. apply list_lookup_imap. Qed.

Lemma handleIndicatorClick_spec w : handleIndicatorClick w = updateUI (flipped w).
Proof. done. Qed.

Lemma toggle_eq w : toggle w = rendered_world (flipped w).
Proof. unfold toggle. by rewrite handleIndicatorClick_spec, updateUI_spec. Qed.

(** ** Reading a rendered page *)

Lemma text_of_render w k :
  text_of (render w) k
  = (λ el, innerText (rendered (this w) k el)) <$> nodes (document w) !! k.
Proof.
  unfold text_of. rewrite render_eq, rendered_world_lookup.
  by destruct (nodes (document w) !! k).
Qed.

Lemma class_of_render w k :
  class_of (render w) k
  = (λ el, className (rendered (this w) k el)) <$> nodes (document w) !! k.
Proof.
  unfold class_of. rewrite render_eq, rendered_world_lookup.
  by destruct (nodes (document w) !! k).
Qed.

Lemma data_val_render w k : data_val (render w) k = data_val w k.
Proof.
  unfold data_val. rewrite render_eq, rendered_world_lookup.
  destruct (nodes (document w) !! k); simpl; [|done].
  unfold rendered. by rewrite getAttribute_apply_patch.
Qed.

Lemma this_render w : this (render w) = this w.
Proof. by rewrite render_eq. Qed.

Lemma in_page_lookup w k :
  in_page w (Some k) = true → is_Some (nodes (document w) !! k).
Proof.
  simpl. intros Hk%bool_decide_eq_true. by apply lookup_lt_is_Some.
Qed.

Lemma className_written s p el :
  patch_class p = Some s → className (apply_patch p el) = s.
Proof.
  intros Hp. unfold className, apply_patch; simpl. rewrite Hp.
  by rewrite lookup_insert_eq.
Qed.

(** Which write stays, for each surface. *)
Lemma text_written_sensor a k :
  all_bound a = true → k ∈ sensorValues a →
  text_written a k = Some (sensor_source (isConnected a)).
Proof.
  intros Hb Hk. unfold text_written.
  by rewrite Hb, bool_decide_eq_true_2.
Qed.

Lemma sensors_apart a k :
  surfaces_apart a = true → k ∈ sensorValues a →
  indicatorIcon a ≠ Some k ∧ indicatorText a ≠ Some k.
Proof.
  unfold surfaces_apart. intros [_ Hs]%andb_true_iff Hk.
  rewrite forallb_forall in Hs. apply list_elem_of_In, Hs in Hk.
  apply andb_true_iff in Hk as [Hi Ht].
  apply negb_true_iff, bool_decide_eq_false in Hi, Ht. done.
Qed.

Lemma text_written_label a t :
  all_bound a = true → surfaces_apart a = true → indicatorText a = Some t →
  text_written a t = Some (Literal (label (isConnected a))).
Proof.
  intros Hb Ha Ht. unfold text_written. rewrite Hb; simpl.
  case_bool_decide as Hk.
  { by destruct (sensors_apart a t Ha Hk) as [_ []]. }
  unfold all_bound in Hb. apply andb_true_iff in Hb as [Hb _].
  apply andb_true_iff in Hb as [Hb _]. rewrite Hb; simpl.
  unfold hits. by rewrite bool_decide_eq_true_2.
Qed.

Lemma text_written_icon a i :
  all_bound a = true → surfaces_apart a = true → indicatorIcon a = Some i →
  text_written a i = Some (Literal (glyph (isConnected a))).
Proof.
  intros Hb Ha Hi. unfold text_written. rewrite Hb; simpl.
  case_bool_decide as Hk.
  { by destruct (sensors_apart a i Ha Hk) as [[] _]. }
  assert (hits (indicatorText a) i = false) as ->.
  { apply bool_decide_eq_false. intros Ht.
    apply andb_true_iff in Ha as [Hne%bool_decide_eq_true _]. congruence. }
  rewrite andb_false_r.
  unfold all_bound in Hb. do 3 apply andb_true_iff in Hb as [Hb _].
  rewrite Hb; simpl. unfold hits. by rewrite bool_decide_eq_true_2.
Qed.

Lemma class_written_ring a r :
  all_bound a = true → pulseRing a = Some r →
  class_written a r = Some (ring_class (isConnected a)).
Proof.
  intros Hb Hr. unfold class_written.
  unfold all_bound in Hb. apply andb_true_iff in Hb as [Hb _].
  rewrite Hb; simpl. unfold hits. by rewrite bool_decide_eq_true_2.
Qed.

Lemma well_bound_inv w :
  well_bound w = true →
  all_bound (this w) = true
  ∧ (∃ b i t r, indicatorBtn (this w) = Some b ∧ indicatorIcon (this w) = Some i
       ∧ indicatorText (this w) = Some t ∧ pulseRing (this w) = Some r
       ∧ is_Some (nodes (document w) !! b) ∧ is_Some (nodes (document w) !! i)
       ∧ is_Some (nodes (document w) !! t) ∧ is_Some (nodes (document w) !! r))
  ∧ (∀ k, k ∈ sensorValues (this w) → is_Some (nodes (document w) !! k)).
Proof.
  unfold well_bound. rewrite !andb_true_iff.
  intros [[[[[Hb Hib] Hii] Hit] Hir] Hs]. split; [done|]. split.
  - unfold all_bound in Hb. rewrite !andb_true_iff in Hb.
    destruct Hb as [[[Hbb Hbi] Hbt] Hbr].
    destruct (indicatorBtn (this w)) as [b|]; [|done].
    destruct (indicatorIcon (this w)) as [i|]; [|done].
    destruct (indicatorText (this w)) as [t|]; [|done].
    destruct (pulseRing (this w)) as [r|]; [|done].
    exists b, i, t, r. repeat split; try done; by apply in_page_lookup.
  - intros k Hk. rewrite forallb_forall in Hs.
    apply in_page_lookup, Hs. by apply list_elem_of_In.
Qed.

(** The state-to-presentation table, read off a rendered page. *)
Lemma render_table w :
  well_bound w = true → surfaces_apart (this w) = true →
  (∀ k, k ∈ sensorValues (this w) →
     text_of (render w) k
     = if isConnected (this w) then to_DOMString <$> data_val w k else Some "0")
  ∧ label_text (render w) = Some (label (isConnected (this w)))
  ∧ icon_text (render w) = Some (glyph (isConnected (this w)))
  ∧ pulse_class (render w) = Some (ring_class (isConnected (this w))).
Proof.
  intros Hw Ha.
  destruct (well_bound_inv w Hw)
    as (Hb & (b & i & t & r & Hbb & Hbi & Hbt & Hbr & _ & [ei Hi] & [et Ht] & [er Hr]) & Hs).
  split; [|split; [|split]].
  - intros k Hk. destruct (Hs k Hk) as [el Hel].
    rewrite text_of_render. unfold data_val. rewrite Hel; simpl.
    unfold rendered, apply_patch; simpl.
    rewrite text_written_sensor by done.
    by destruct (isConnected (this w)).
  - unfold label_text. rewrite this_render, Hbt; simpl.
    rewrite text_of_render, Ht; simpl.
    unfold rendered, apply_patch; simpl.
    by rewrite (text_written_label _ t).
  - unfold icon_text. rewrite this_render, Hbi; simpl.
    rewrite text_of_render, Hi; simpl.
    unfold rendered, apply_patch; simpl.
    by rewrite (text_written_icon _ i).
  - unfold pulse_class. rewrite this_render, Hbr; simpl.
    rewrite class_of_render, Hr; simpl. f_equal.
    apply className_written; simpl. by apply class_written_ring.
Qed.

Lemma pulse_hidden_class w :
  pulse_hidden w = (λ s, bool_decide ("hidden" ∈ tokens s)) <$> pulse_class w.
Proof.
  unfold pulse_hidden, pulse_class, class_of.
  destruct (pulseRing (this w)) as [r|]; simpl; [|done].
  by destruct (nodes (document w) !! r).
Qed.

(** ** State and presentation *)

(** C1. For either connection state, [render()] on a page whose four
    single surfaces are bound, with the icon and the label apart from the
    sensor displays, returns and leaves the presentation of that state:
    when connected, every sensor display shows its [data-val], the label
    reads Online, the icon shows the online glyph and the ring is hidden;
    when disconnected, every sensor display shows 0, the label reads
    Offline, the icon shows the offline glyph and the ring is visible. *)
Theorem render_presents_state w :
  well_bound w = true → surfaces_apart (this w) = true →
  (updateUI w).1 = Normal ()
  ∧ (isConnected (this w) = true →
       (∀ k v, k ∈ sensorValues (this w) → data_val w k = Some (Str v) →
               text_of (render w) k = Some v)
       ∧ label_text (render w) = Some "Online"
       ∧ icon_text (render w) = Some "wifi"
       ∧ pulse_class (render w) = Some "hidden"
       ∧ pulse_hidden (render w) = Some true)
  ∧ (isConnected (this w) = false →
       (∀ k, k ∈ sensorValues (this w) → text_of (render w) k = Some "0")
       ∧ label_text (render w) = Some "Offline"
       ∧ icon_text (render w) = Some "wifi_off"
       ∧ pulse_class (render w) = Some pulse_style
       ∧ pulse_hidden (render w) = Some false).
Proof.
  intros Hw Ha.
  destruct (render_table w Hw Ha) as (Hs & Hl & Hi & Hr).
  destruct (well_bound_inv w Hw) as (Hb & _).
  split; [by rewrite updateUI_spec, Hb|].
  split; intros Hc; rewrite Hc in *; simpl in *.
  - repeat split; try done.
    + intros k v Hk Hv. by rewrite Hs, Hv.
    + by rewrite pulse_hidden_class, Hr.
  - repeat split; try done.
    by rewrite pulse_hidden_class, Hr.
Qed.

Lemma render_presents_state_witness :
  (well_bound (sample_world true) = true
   ∧ surfaces_apart (this (sample_world true)) = true)
  ∧ text_of (render (sample_world true)) 4 = Some "23.5"
  ∧ label_text (render (sample_world true)) = Some "Online".
Proof.
  split; [split; by vm_compute|].
  destruct (render_presents_state (sample_world true)) as (_ & Hc & _);
    [by vm_compute | by vm_compute |].
  destruct (Hc eq_refl) as (Hs & Hl & _).
  split; [|exact Hl].
  apply Hs; [by apply (bool_decide_unpack _); vm_compute | by vm_compute].
Defined.

(** C10, as the code has it. When connected, a sensor display without a
    [data-val] attribute is given the [null] that the lookup returns, and
    the [innerText] setter turns it into the empty text: the display
    shows nothing, whatever it showed before; it shows neither the text
    null nor 0. *)
Theorem render_sensor_without_data_val w k :
  all_bound (this w) = true → isConnected (this w) = true →
  k ∈ sensorValues (this w) → data_val w k = Some Null →
  text_of (render w) k = Some ""
  ∧ text_of (render w) k ≠ Some "null"
  ∧ text_of (render w) k ≠ Some "0".
Proof.
  intros Hb Hc Hk Hv.
  assert (text_of (render w) k = Some "") as ->; [|done].
  rewrite text_of_render. unfold data_val in Hv.
  destruct (nodes (document w) !! k) as [el|]; [|done]; simpl in *.
  unfold rendered, apply_patch; simpl.
  rewrite text_written_sensor, Hc by done; simpl.
  injection Hv as ->. done.
Qed.

Lemma render_sensor_without_data_val_witness :
  data_val (sample_world true) 5 = Some Null
  ∧ text_of (sample_world true) 5 = Some "--"
  ∧ text_of (render (sample_world true)) 5 = Some "".
Proof.
  split; [by vm_compute|]. split; [by vm_compute|].
  apply (render_sensor_without_data_val (sample_world true) 5);
    [by vm_compute | by vm_compute | | by vm_compute].
  by apply (bool_decide_unpack _); vm_compute.
Defined.

(** C10 as stated fails: on the example page, connected, the display
    without [data-val] does not get the text null. *)
Lemma sensor_without_data_val_not_null_text :
  isConnected (this (sample_world true)) = true
  ∧ 5 ∈ sensorValues (this (sample_world true))
  ∧ data_val (sample_world true) 5 = Some Null
  ∧ (updateUI (sample_world true)).1 = Normal ()
  ∧ text_of (render (sample_world true)) 5 = Some ""
  ∧ text_of (render (sample_world true)) 5 ≠ Some "null".
Proof.
  repeat split; try by vm_compute.
  by apply (bool_decide_unpack _); vm_compute.
Qed.

(** ** Rendering again, toggling back *)

Lemma same_handles_covers a a' k :
  indicatorBtn a' = indicatorBtn a → indicatorIcon a' = indicatorIcon a →
  indicatorText a' = indicatorText a → pulseRing a' = pulseRing a →
  sensorValues a' = sensorValues a →
  covers (mkPatch (class_written a k) (text_written a k))
         (mkPatch (class_written a' k) (text_written a' k)) = true.
Proof.
  intros Hb Hi Ht Hr Hs.
  unfold covers, class_written, text_written, all_bound; simpl.
  rewrite Hb, Hi, Ht, Hr, Hs.
  repeat match goal with
         | |- context [if ?b then _ else _] => destruct b; simpl
         end; done.
Qed.

Lemma rendered_absorbs a a' k el :
  indicatorBtn a' = indicatorBtn a → indicatorIcon a' = indicatorIcon a →
  indicatorText a' = indicatorText a → pulseRing a' = pulseRing a →
  sensorValues a' = sensorValues a →
  rendered a k (rendered a' k el) = rendered a k el.
Proof.
  intros. unfold rendered. by apply apply_patch_covers, same_handles_covers.
Qed.

Lemma document_eq d d' :
  nodes d = nodes d' → readyState d = readyState d' →
  contentLoadedListeners d = contentLoadedListeners d' →
  clickListeners d = clickListeners d' → d = d'.
Proof. destruct d, d'; simpl; by intros -> -> -> ->. Qed.

(** Rendering over a page that was last rendered with the same handles
    gives the page a single rendering gives. *)
Lemma render_after_render w w' :
  indicatorBtn (this w') = indicatorBtn (this w) →
  indicatorIcon (this w') = indicatorIcon (this w) →
  indicatorText (this w') = indicatorText (this w) →
  pulseRing (this w') = pulseRing (this w) →
  sensorValues (this w') = sensorValues (this w) →
  nodes (document w') = imap (rendered (this w')) (nodes (document w)) →
  imap (rendered (this w)) (nodes (document w'))
  = imap (rendered (this w)) (nodes (document w)).
Proof.
  intros Hb Hi Ht Hr Hs ->. apply list_eq; intros k.
  rewrite !list_lookup_imap.
  destruct (nodes (document w) !! k) as [el|]; simpl; [|done].
  by rewrite rendered_absorbs.
Qed.

(** C4. [render()] is idempotent: a second call, with the state
    unchanged, completes the way the first did and leaves the page and the
    controller exactly as the first call left them. *)
Theorem render_idempotent w :
  (updateUI (render w)).1 = (updateUI w).1
  ∧ document (render (render w)) = document (render w)
  ∧ this (render (render w)) = this (render w)
  ∧ this (render w) = this w.
Proof.
  rewrite !updateUI_spec, !render_eq. simpl.
  repeat split. apply document_eq; try done; simpl.
  by apply (render_after_render w (rendered_world w)).
Qed.

(** C3. From either state, two calls of [toggle()] bring the connection
    state back, and a [render()] after them completes as, and leaves the
    page that, a [render()] before them does. *)
Theorem toggle_twice w :
  isConnected (this (toggle (toggle w))) = isConnected (this w)
  ∧ this (toggle (toggle w)) = this w
  ∧ (updateUI (toggle (toggle w))).1 = (updateUI w).1
  ∧ document (render (toggle (toggle w))) = document (render w)
  ∧ document (toggle (toggle w)) = document (render w).
Proof.
  rewrite !toggle_eq, !render_eq, !updateUI_spec.
  assert (this (rendered_world (flipped (rendered_world (flipped w)))) = this w)
    as Hthis.
  { destruct w as [[c b i t r s] d cs]; simpl.
    unfold set_isConnected; simpl. by rewrite negb_involutive. }
  rewrite Hthis. repeat split.
  all: apply document_eq; try done; simpl.
  all: rewrite negb_involutive.
  all: set (a := this w); set (a' := set_isConnected (negb (isConnected a)) a).
  all: replace (set_isConnected (isConnected a) a') with a by by destruct a.
  all: apply list_eq; intros k; rewrite !list_lookup_imap.
  all: destruct (nodes (document w) !! k) as [el|]; simpl; [|done].
  all: f_equal; by rewrite !rendered_absorbs.
Qed.

(** ** Calling [toggle()] *)

(** C6, as the code has it. In either state [toggle()] inverts the
    connection state and then renders exactly once, on the inverted
    state, and completes as that rendering does: with the four single
    surfaces bound it returns [undefined]; with the ring absent and the
    other three bound the [TypeError] of [updateUI] comes out of it, the
    state inverted all the same. *)
Theorem toggle_inverts_then_renders w :
  isConnected (this (toggle w)) = negb (isConnected (this w))
  ∧ this (toggle w) = set_isConnected (negb (isConnected (this w))) (this w)
  ∧ calls (toggle w) = calls w ++ [CallHandleIndicatorClick; CallUpdateUI]
  ∧ document (toggle w) = document (render (flipped w))
  ∧ (handleIndicatorClick w).1 = (updateUI (flipped w)).1
  ∧ (all_bound (this w) = true → (handleIndicatorClick w).1 = Normal ())
  ∧ (ring_missing w = true → (handleIndicatorClick w).1 = Throw TypeError).
Proof.
  rewrite toggle_eq, render_eq, handleIndicatorClick_spec, updateUI_spec.
  simpl.
  change (all_bound (set_isConnected (negb (isConnected (this w))) (this w)))
    with (all_bound (this w)).
  repeat split.
  - by rewrite <- app_assoc.
  - by intros ->.
  - unfold ring_missing. rewrite !andb_true_iff.
    intros [[[[_ Hr%negb_true_iff] _] _] _].
    unfold all_bound. by rewrite Hr, andb_false_r.
Qed.

Lemma toggle_inverts_then_renders_witness :
  (all_bound (this (sample_world false)) = true
   ∧ (handleIndicatorClick (sample_world false)).1 = Normal ())
  ∧ (ring_missing (constructor (page_without_ring loading)).2 = true
     ∧ (handleIndicatorClick (constructor (page_without_ring loading)).2).1
       = Throw TypeError).
Proof.
  split.
  - split; [by vm_compute|].
    destruct (toggle_inverts_then_renders (sample_world false))
      as (_ & _ & _ & _ & _ & H & _).
    apply H. by vm_compute.
  - split; [by vm_compute|].
    destruct (toggle_inverts_then_renders
                (constructor (page_without_ring loading)).2)
      as (_ & _ & _ & _ & _ & _ & H).
    apply H. by vm_compute.
Defined.

(** C6 as stated fails: on the example page without the ring, [toggle()]
    throws from the state Disconnected, and throws again from the state
    Connected it has left. *)
Lemma toggle_without_ring_throws :
  isConnected (this (constructor (page_without_ring loading)).2) = false
  ∧ (handleIndicatorClick (constructor (page_without_ring loading)).2).1
    = Throw TypeError
  ∧ isConnected (this (toggle (constructor (page_without_ring loading)).2))
    = true
  ∧ (handleIndicatorClick
       (toggle (constructor (page_without_ring loading)).2)).1
    = Throw TypeError.
Proof. repeat split; by vm_compute. Qed.

(** ** A surface that is not there *)

Lemma updateUI_returns_iff w :
  (updateUI w).1 = Normal () ↔ all_bound (this w) = true.
Proof. rewrite updateUI_spec; simpl. by destruct (all_bound (this w)). Qed.

Lemma ring_missing_inv w :
  ring_missing w = true →
  ∃ b i t eb ei et,
    indicatorBtn (this w) = Some b ∧ indicatorIcon (this w) = Some i
    ∧ indicatorText (this w) = Some t ∧ pulseRing (this w) = None
    ∧ nodes (document w) !! b = Some eb ∧ nodes (document w) !! i = Some ei
    ∧ nodes (document w) !! t = Some et.
Proof.
  unfold ring_missing. rewrite !andb_true_iff.
  intros [[[[[[Hb Hi] Ht] Hr] Hpb] Hpi] Hpt].
  destruct (indicatorBtn (this w)) as [b|]; [|done].
  destruct (indicatorIcon (this w)) as [i|]; [|done].
  destruct (indicatorText (this w)) as [t|]; [|done].
  destruct (pulseRing (this w)) as [r|]; [done|].
  apply in_page_lookup in Hpb as [eb Hpb], Hpi as [ei Hpi], Hpt as [et Hpt].
  by exists b, i, t, eb, ei, et.
Qed.

(** C2, as the code has it. [render()] returns when the button, the
    icon, the label and the ring are all bound. With the ring absent and
    the other three bound, it sets the button style and the label (and
    the icon, when that is another element than the label) for the
    current state, then throws a [TypeError] at the ring: every other
    element, the sensor displays among them, is left as it was. *)
Theorem render_missing_ring w :
  (all_bound (this w) = true → (updateUI w).1 = Normal ())
  ∧ (ring_missing w = true →
       (updateUI w).1 = Throw TypeError
       ∧ button_class (render w) = Some (style (isConnected (this w)))
       ∧ label_text (render w) = Some (label (isConnected (this w)))
       ∧ (indicatorIcon (this w) ≠ indicatorText (this w) →
            icon_text (render w) = Some (glyph (isConnected (this w))))
       ∧ (∀ k, hits (indicatorBtn (this w)) k = false →
               hits (indicatorIcon (this w)) k = false →
               hits (indicatorText (this w)) k = false →
               nodes (document (render w)) !! k = nodes (document w) !! k)).
Proof.
  split; [apply updateUI_returns_iff|]. intros Hm.
  destruct (ring_missing_inv w Hm)
    as (b & i & t & eb & ei & et & Hb & Hi & Ht & Hr & Heb & Hei & Het).
  assert (all_bound (this w) = false) as Hall.
  { unfold all_bound. rewrite Hr; simpl. apply andb_false_r. }
  split; [by rewrite updateUI_spec, Hall|].
  split; [|split; [|split]].
  - unfold button_class. rewrite this_render, Hb; simpl.
    rewrite class_of_render, Heb; simpl. f_equal.
    apply className_written; simpl.
    unfold class_written, hits. rewrite Hb, Hi, Ht, Hr.
    rewrite (bool_decide_eq_false_2 (None = Some b)) by done.
    by rewrite (bool_decide_eq_true_2 (Some b = Some b)), andb_false_r.
  - unfold label_text. rewrite this_render, Ht; simpl.
    rewrite text_of_render, Het; simpl.
    unfold rendered, apply_patch, text_written, hits; simpl.
    rewrite Hall, Hb, Hi, Ht.
    by rewrite (bool_decide_eq_true_2 (Some t = Some t)).
  - intros Hne. unfold icon_text. rewrite this_render, Hi; simpl.
    rewrite text_of_render, Hei; simpl.
    unfold rendered, apply_patch, text_written, hits; simpl.
    rewrite Hall, Hb, Hi, Ht.
    rewrite (bool_decide_eq_false_2 (Some t = Some i)) by congruence.
    by rewrite (bool_decide_eq_true_2 (Some i = Some i)).
  - intros k Hkb Hki Hkt.
    rewrite render_eq, rendered_world_lookup.
    unfold rendered, class_written, text_written.
    rewrite Hall, Hkb, Hki, Hkt, Hr, !andb_false_r; simpl.
    destruct (nodes (document w) !! k); simpl; [|done].
    by rewrite apply_patch_none.
Qed.

Lemma render_missing_ring_witness :
  (all_bound (this (sample_world false)) = true
   ∧ (updateUI (sample_world false)).1 = Normal ())
  ∧ (ring_missing (constructor (page_without_ring loading)).2 = true
     ∧ (updateUI (constructor (page_without_ring loading)).2).1
       = Throw TypeError).
Proof.
  split.
  - split; [by vm_compute|].
    destruct (render_missing_ring (sample_world false)) as [H _].
    apply H. by vm_compute.
  - split; [by vm_compute|].
    destruct (render_missing_ring (constructor (page_without_ring loading)).2)
      as [_ H].
    destruct H as [H _]; [by vm_compute|]. exact H.
Defined.

(** C2 as stated fails: on the example page without the ring, [render()]
    throws, and the sensor display keeps the text it had instead of
    getting 0. *)
Lemma render_without_ring_throws :
  pulseRing (this (constructor (page_without_ring loading)).2) = None
  ∧ sensorValues (this (constructor (page_without_ring loading)).2) = [3; 4]
  ∧ isConnected (this (constructor (page_without_ring loading)).2) = false
  ∧ (updateUI (constructor (page_without_ring loading)).2).1 = Throw TypeError
  ∧ text_of (render (constructor (page_without_ring loading)).2) 3 = Some "--"
  ∧ text_of (render (constructor (page_without_ring loading)).2) 3 ≠ Some "0".
Proof. repeat split; by vm_compute. Qed.

(** ** Construction and start-up *)

Lemma setupEventListeners_spec w :
  setupEventListeners w
  = (Normal (),
     with_click (clickListeners (document w) ++ button_listener (this w)) w).
Proof.
  destruct w as [[c [b|] i t r s] [ns rs cl kl] cs]; unfold with_click; simpl;
    [done|]. by rewrite app_nil_r.
Qed.

Lemma initialize_spec w :
  initialize w
  = if decide (readyState (document w) = loading)
    then (Normal (),
          with_contentLoaded
            (contentLoadedListeners (document w) ++ [ArrowUpdateUI]) w)
    else updateUI w.
Proof.
  unfold initialize, mbind, JS_bind, read_readyState; simpl.
  by case_decide.
Qed.

Lemma constructor_spec d :
  constructor d
  = initialize (with_click (clickListeners d ++ button_listener (new_app d))
                  (mkWorld (new_app d) d [])).
Proof.
  unfold constructor, mbind, JS_bind. by rewrite setupEventListeners_spec.
Qed.

Lemma getElementById_in_page id d n :
  getElementById id d = Some n → n < length (nodes d).
Proof.
  unfold getElementById. intros H.
  apply fmap_Some in H as [[j el] [H ->]].
  apply list_find_Some in H as [H _]. by apply lookup_lt_Some in H.
Qed.

Lemma querySelectorAll_class_elem c d k :
  k ∈ querySelectorAll_class c d
  ↔ ∃ el, nodes d !! k = Some el ∧ c ∈ classList el.
Proof.
  unfold querySelectorAll_class. rewrite list_elem_of_fmap. split.
  - intros [[j el] [-> [Hc Hin]%list_elem_of_filter]].
    apply elem_of_lookup_imap in Hin as (j' & el' & [= -> ->] & Hl).
    by exists el'.
  - intros [el [Hl Hc]]. exists (k, el). split; [done|].
    apply list_elem_of_filter. split; [done|].
    apply elem_of_lookup_imap. by exists k, el.
Qed.

Lemma rendered_world_with_contentLoaded cl w :
  rendered_world (with_contentLoaded cl w)
  = with_contentLoaded cl (rendered_world w).
Proof. done. Qed.

Lemma invoke_with_contentLoaded cl l w :
  (invoke l (with_contentLoaded cl w)).2 = with_contentLoaded cl (invoke l w).2.
Proof.
  destruct l; simpl; rewrite ?handleIndicatorClick_spec, !updateUI_spec; done.
Qed.

Lemma run_listeners_with_contentLoaded cl ls w :
  run_listeners ls (with_contentLoaded cl w)
  = with_contentLoaded cl (run_listeners ls w).
Proof.
  revert w. induction ls as [|l ls IH]; intros w; [done|].
  simpl. by rewrite invoke_with_contentLoaded, IH.
Qed.

Lemma invoke_readyState l w :
  readyState (document (invoke l w).2) = readyState (document w).
Proof.
  destruct l; simpl; rewrite ?handleIndicatorClick_spec, !updateUI_spec; done.
Qed.

Lemma run_listeners_readyState ls w :
  readyState (document (run_listeners ls w)) = readyState (document w).
Proof.
  revert w. induction ls as [|l ls IH]; intros w; [done|].
  simpl. by rewrite IH, invoke_readyState.
Qed.

Lemma fire_loading w :
  readyState (document w) = loading →
  fire_DOMContentLoaded w
  = run_listeners (contentLoadedListeners (document w))
      (with_readyState interactive w).
Proof. intros H. unfold fire_DOMContentLoaded. by rewrite decide_True. Qed.

Lemma fire_not_loading w :
  readyState (document w) ≠ loading → fire_DOMContentLoaded w = w.
Proof. intros H. unfold fire_DOMContentLoaded. by rewrite decide_False. Qed.

Lemma fire_readyState w :
  readyState (document (fire_DOMContentLoaded w)) ≠ loading.
Proof.
  destruct (decide (readyState (document w) = loading)) as [H|H].
  - by rewrite fire_loading, run_listeners_readyState.
  - by rewrite fire_not_loading.
Qed.

(** Once the page is parsed and the controller built, one rendering of
    the freshly built controller has happened, and nothing else. *)
Lemma startup_fresh ns rs :
  ∃ w0, startup (fresh_page ns rs) = render w0
        ∧ this w0 = new_app (fresh_page ns rs)
        ∧ nodes (document w0) = ns ∧ calls w0 = [].
Proof.
  unfold startup. rewrite constructor_spec, initialize_spec; simpl.
  destruct (decide (rs = loading)) as [->|Hrs]; simpl.
  - rewrite fire_loading by done; simpl.
    eexists (mkWorld _ (mkDocument _ _ _ _) _). by split.
  - rewrite fire_not_loading.
    + eexists (mkWorld _ (mkDocument _ _ _ _) _). by split.
    + by rewrite updateUI_spec.
Qed.

(** C5. Once a page with the four single surfaces has been parsed and
    the controller built on it, the state is Disconnected, one rendering
    has happened, the ring is visible and every sensor display shows 0. *)
Theorem initial_state ns rs :
  all_bound (new_app (fresh_page ns rs)) = true →
  isConnected (this (startup (fresh_page ns rs))) = false
  ∧ calls (startup (fresh_page ns rs)) = [CallUpdateUI]
  ∧ pulse_class (startup (fresh_page ns rs)) = Some pulse_style
  ∧ pulse_hidden (startup (fresh_page ns rs)) = Some false
  ∧ sensorValues (this (startup (fresh_page ns rs)))
    = querySelectorAll_class "sensor-val" (fresh_page ns rs)
  ∧ (∀ k, k ∈ sensorValues (this (startup (fresh_page ns rs))) →
          text_of (startup (fresh_page ns rs)) k = Some "0").
Proof.
  intros Hb. destruct (startup_fresh ns rs) as (w0 & -> & Ha & Hns & Hcs).
  assert (pulse_class (render w0) = Some pulse_style) as Hp.
  { unfold pulse_class. rewrite this_render, Ha.
    destruct (pulseRing (new_app (fresh_page ns rs))) as [r|] eqn:Hr;
      [|unfold all_bound in Hb; rewrite Hr, andb_false_r in Hb; done].
    simpl. rewrite class_of_render, Hns.
    destruct (lookup_lt_is_Some_2 ns r) as [er ->].
    { by apply (getElementById_in_page "pulseRing" (fresh_page ns rs)). }
    simpl. f_equal. apply className_written; simpl.
    rewrite Ha. by rewrite class_written_ring. }
  rewrite this_render, Ha. repeat split; try done.
  - by rewrite render_eq; simpl; rewrite Hcs.
  - by rewrite pulse_hidden_class, Hp.
  - intros k Hk. simpl in Hk.
    apply querySelectorAll_class_elem in Hk as (el & Hel & Hc). simpl in Hel.
    rewrite text_of_render, Hns, Hel; simpl.
    unfold rendered, apply_patch; simpl. rewrite Ha.
    rewrite text_written_sensor; [done|done|].
    simpl. apply querySelectorAll_class_elem. by exists el.
Qed.

Lemma initial_state_witness :
  all_bound (new_app (fresh_page sample_nodes loading)) = true
  ∧ isConnected (this (startup (fresh_page sample_nodes loading))) = false
  ∧ text_of (startup (fresh_page sample_nodes loading)) 4 = Some "0".
Proof.
  split; [by vm_compute|].
  destruct (initial_state sample_nodes loading) as (Hc & _ & _ & _ & _ & Hs);
    [by vm_compute|].
  split; [exact Hc|]. apply Hs.
  by apply (bool_decide_unpack _); vm_compute.
Defined.

(** ** [initialize()] *)

(** C7. [initialize()] schedules one rendering. On a page that is no
    longer loading it is one synchronous call of [updateUI]. On a page
    that is still loading it returns without rendering and adds one
    listener; when DOMContentLoaded fires, that listener renders once,
    after the listeners registered before it; the event does not fire a
    second time. *)
Theorem initialize_renders_once w :
  (readyState (document w) ≠ loading →
     initialize w = updateUI w
     ∧ calls (initialize w).2 = calls w ++ [CallUpdateUI]
     ∧ contentLoadedListeners (document (initialize w).2)
       = contentLoadedListeners (document w))
  ∧ (readyState (document w) = loading →
     initialize w
     = (Normal (),
        with_contentLoaded
          (contentLoadedListeners (document w) ++ [ArrowUpdateUI]) w)
     ∧ calls (initialize w).2 = calls w
     ∧ fire_DOMContentLoaded (initialize w).2
       = with_contentLoaded
           (contentLoadedListeners (document w) ++ [ArrowUpdateUI])
           (render (fire_DOMContentLoaded w))
     ∧ calls (fire_DOMContentLoaded (initialize w).2)
       = calls (fire_DOMContentLoaded w) ++ [CallUpdateUI]
     ∧ fire_DOMContentLoaded (fire_DOMContentLoaded (initialize w).2)
       = fire_DOMContentLoaded (initialize w).2).
Proof.
  rewrite initialize_spec. split; intros Hrs.
  - rewrite decide_False by done. by rewrite updateUI_spec.
  - rewrite decide_True by done. simpl.
    assert (fire_DOMContentLoaded
              (with_contentLoaded
                 (contentLoadedListeners (document w) ++ [ArrowUpdateUI]) w)
            = with_contentLoaded
                (contentLoadedListeners (document w) ++ [ArrowUpdateUI])
                (render (fire_DOMContentLoaded w))) as Hfire.
    { rewrite !fire_loading by done. simpl.
      unfold run_listeners at 1. rewrite foldl_app. simpl.
      fold (run_listeners (contentLoadedListeners (document w))
              (with_readyState interactive
                 (with_contentLoaded
                    (contentLoadedListeners (document w) ++ [ArrowUpdateUI]) w))).
      change (with_readyState interactive (with_contentLoaded ?cl w))
        with (with_contentLoaded cl (with_readyState interactive w)).
      rewrite run_listeners_with_contentLoaded.
      by rewrite !updateUI_spec, render_eq. }
    rewrite Hfire. repeat split.
    + by rewrite render_eq.
    + apply fire_not_loading. rewrite render_eq. simpl.
      apply fire_readyState.
Qed.

Lemma initialize_renders_once_witness :
  (readyState (document (sample_world false)) ≠ loading
   ∧ calls (initialize (sample_world false)).2 = [CallUpdateUI])
  ∧ (readyState (document (with_readyState loading (sample_world false))) = loading
     ∧ calls (initialize (with_readyState loading (sample_world false))).2 = []
     ∧ calls (fire_DOMContentLoaded
                (initialize (with_readyState loading (sample_world false))).2)
       = [CallUpdateUI]).
Proof.
  split.
  - split; [by vm_compute|].
    destruct (initialize_renders_once (sample_world false)) as [H _].
    destruct H as (_ & H & _); [by vm_compute|]. exact H.
  - split; [by vm_compute|].
    destruct (initialize_renders_once
                (with_readyState loading (sample_world false))) as [_ H].
    destruct H as (_ & H1 & _ & H2 & _); [by vm_compute|].
    split; [exact H1 | exact H2].
Defined.

(** ** Who writes the connection state *)

Lemma this_initialize w : this (initialize w).2 = this w.
Proof. rewrite initialize_spec. case_decide; [done|]. by rewrite updateUI_spec. Qed.

Lemma this_toggle w :
  this (toggle w) = set_isConnected (negb (isConnected (this w))) (this w).
Proof. by rewrite toggle_eq. Qed.

(** Listeners that only render keep the controller as it is. *)
Lemma run_renders ls w :
  Forall (λ l, l = ArrowUpdateUI) ls →
  this (run_listeners ls w) = this w
  ∧ clickListeners (document (run_listeners ls w)) = clickListeners (document w)
  ∧ contentLoadedListeners (document (run_listeners ls w))
    = contentLoadedListeners (document w).
Proof.
  intros Hls. revert w. induction Hls as [|l ls -> _ IH]; intros w; [done|].
  simpl. destruct (IH (updateUI w).2) as (-> & -> & ->).
  by rewrite updateUI_spec.
Qed.

Lemma click_own w n :
  own_listeners w →
  click n w = if hits (indicatorBtn (this w)) n then toggle w else w.
Proof.
  intros [Hkl _]. unfold click, button_listener, hits in *. rewrite Hkl.
  destruct (indicatorBtn (this w)) as [b|]; [|done].
  rewrite filter_cons, filter_nil. simpl.
  destruct (decide (b = n)) as [->|Hne].
  - by rewrite bool_decide_eq_true_2.
  - by rewrite bool_decide_eq_false_2 by congruence.
Qed.

(** One operation: the handles and the listeners of the controller stay,
    and the connection state changes exactly when the operation is a
    toggle. *)
Lemma step_state w op :
  own_listeners w →
  own_listeners (step w op)
  ∧ this (step w op)
    = set_isConnected (xorb (isConnected (this w)) (is_toggle (this w) op)) (this w).
Proof.
  intros Hown. pose proof Hown as [Hkl Hcl].
  assert (∀ a, set_isConnected (xorb (isConnected a) false) a = a) as Hid.
  { intros []; unfold set_isConnected; simpl. by rewrite xorb_false_r. }
  destruct op as [| | |n|]; simpl.
  - rewrite render_eq, Hid. by split.
  - rewrite this_initialize, Hid. split; [|done].
    rewrite initialize_spec. case_decide; [|by rewrite updateUI_spec].
    split; [done|]. simpl. apply Forall_app. split; [done|]. by constructor.
  - rewrite toggle_eq. simpl. rewrite xorb_true_r. by split.
  - rewrite click_own by done.
    destruct (hits (indicatorBtn (this w)) n); [|by rewrite Hid].
    rewrite toggle_eq. simpl. rewrite xorb_true_r. by split.
  - rewrite Hid. unfold fire_DOMContentLoaded. case_decide; [|done].
    destruct (run_renders (contentLoadedListeners (document w))
                (with_readyState interactive w) Hcl) as (Ha & Hk & Hc).
    simpl in *. unfold with_readyState in *. simpl in *.
    split; [|done]. split; simpl.
    + by rewrite Hk, Ha.
    + by rewrite Hc.
Qed.

Lemma toggles_cons a op ops :
  toggles a (op :: ops) = (if is_toggle a op then 1 else 0) + toggles a ops.
Proof.
  unfold toggles. rewrite filter_cons.
  destruct (is_toggle a op); by case_decide.
Qed.

Lemma run_state ops w :
  own_listeners w →
  own_listeners (run ops w)
  ∧ this (run ops w)
    = set_isConnected (xorb (isConnected (this w)) (Nat.odd (toggles (this w) ops)))
        (this w).
Proof.
  revert w. induction ops as [|op ops IH]; intros w Hown.
  - split; [done|]. simpl. destruct (this w); unfold set_isConnected; simpl.
    by rewrite xorb_false_r.
  - destruct (step_state w op Hown) as [Hown' Hthis].
    destruct (IH _ Hown') as [Hown'' Hrun].
    change (run (op :: ops) w) with (run ops (step w op)). split; [done|].
    rewrite Hrun, Hthis, toggles_cons.
    assert (∀ c a, toggles (set_isConnected c a) ops = toggles a ops) as ->
      by done.
    unfold set_isConnected; simpl. f_equal.
    destruct (is_toggle (this w) op); simpl.
    + rewrite Nat.odd_succ, <- Nat.negb_odd.
      by destruct (isConnected (this w)), (Nat.odd (toggles (this w) ops)).
    + by rewrite xorb_false_r.
Qed.

Lemma constructor_own ns rs : own_listeners (constructor (fresh_page ns rs)).2.
Proof.
  rewrite constructor_spec, initialize_spec. simpl.
  case_decide; simpl.
  - split; [done|]. simpl. by repeat constructor.
  - rewrite updateUI_spec. by split.
Qed.

Lemma constructor_this d : this (constructor d).2 = new_app d.
Proof. by rewrite constructor_spec, this_initialize. Qed.

(** C8. Only the toggle writes the connection state. [render()] and
    [initialize()] leave the controller as it is, and [render()] leaves
    every [data-val]; after any operations on a page the controller was
    built on, the state is Connected exactly when the number of toggles
    among them is odd, and the handles are those of the construction. *)
Theorem state_written_by_toggle_only :
  (∀ w, this (render w) = this w)
  ∧ (∀ w k, data_val (render w) k = data_val w k)
  ∧ (∀ w, this (initialize w).2 = this w)
  ∧ (∀ ns rs ops,
       isConnected (this (run ops (constructor (fresh_page ns rs)).2))
       = Nat.odd (toggles (new_app (fresh_page ns rs)) ops)
       ∧ this (run ops (constructor (fresh_page ns rs)).2)
         = set_isConnected (Nat.odd (toggles (new_app (fresh_page ns rs)) ops))
             (new_app (fresh_page ns rs))).
Proof.
  split; [apply this_render|]. split; [apply data_val_render|].
  split; [apply this_initialize|]. intros ns rs ops.
  destruct (run_state ops _ (constructor_own ns rs)) as [_ Hrun].
  rewrite constructor_this in Hrun. simpl in Hrun.
  by rewrite Hrun.
Qed.

(** ** Construction without the indicator button *)

(** X4. The constructor returns exactly when the page is still loading, so
    that nothing is rendered yet, or all four single surfaces are bound. *)
Lemma constructor_returns_iff d :
  (constructor d).1 = Normal ()
  ↔ readyState d = loading ∨ all_bound (new_app d) = true.
Proof.
  rewrite constructor_spec, initialize_spec. simpl. case_decide as Hrs.
  - simpl. split; [by left|done].
  - rewrite updateUI_returns_iff. simpl. split; [by right|by intros [|]].
Qed.

(** C9 at a page that has been parsed already and has no element
    [indicatorBtn]: [setupEventListeners] skips the registration and
    returns, but the constructor then throws [TypeError] out of
    [updateUI], before anything is written to the page. *)
Theorem constructor_without_button_throws :
  getElementById "indicatorBtn" (page_without_button complete) = None
  ∧ setupEventListeners
      (mkWorld (new_app (page_without_button complete))
         (page_without_button complete) [])
    = (Normal (),
       mkWorld (new_app (page_without_button complete))
         (page_without_button complete) [])
  ∧ (constructor (page_without_button complete)).1 = Throw TypeError
  ∧ document (constructor (page_without_button complete)).2
    = page_without_button complete.
Proof. repeat split; by vm_compute. Qed.

(** ** Every operation is made of renders and state flips *)

Lemma invoke_cases l w :
  (invoke l w).2 = rendered_world w
  ∨ (invoke l w).2 = rendered_world (flipped w).
Proof.
  destruct l; simpl.
  - right. by rewrite handleIndicatorClick_spec, updateUI_spec.
  - left. by rewrite updateUI_spec.
Qed.

Section preserved.
Variable P : World → Prop.
Hypothesis P_rendered : ∀ w, P w → P (rendered_world w).
Hypothesis P_flipped : ∀ w, P w → P (flipped w).
Hypothesis P_contentLoaded : ∀ cl w, P w → P (with_contentLoaded cl w).
Hypothesis P_readyState : ∀ state w, P w → P (with_readyState state w).

Lemma run_listeners_preserves ls w : P w → P (run_listeners ls w).
Proof.
  revert w. induction ls as [|l ls IH]; intros w Hw; [done|].
  simpl. apply IH. destruct (invoke_cases l w) as [-> | ->]; auto.
Qed.

Lemma step_preserves w op : P w → P (step w op).
Proof.
  intros Hw. destruct op as [| | |n|]; simpl.
  - rewrite render_eq. auto.
  - rewrite initialize_spec. case_decide; simpl; [auto|].
    rewrite updateUI_spec. simpl. auto.
  - rewrite toggle_eq. auto.
  - by apply run_listeners_preserves.
  - unfold fire_DOMContentLoaded. case_decide; [|done].
    apply run_listeners_preserves. auto.
Qed.

Lemma run_preserves ops w : P w → P (run ops w).
Proof.
  revert w. induction ops as [|op ops IH]; intros w Hw; [done|].
  apply IH. by apply step_preserves.
Qed.
End preserved.

(** ** What no operation does *)

Lemma attribute_of_rendered w k name :
  name ≠ "class" →
  attribute_of (rendered_world w) k name = attribute_of w k name.
Proof.
  intros Hne. unfold attribute_of. rewrite rendered_world_lookup.
  destruct (nodes (document w) !! k) as [el|]; simpl; [|done].
  unfold rendered, apply_patch; simpl.
  destruct (class_written (this w) k); [|done].
  by rewrite lookup_insert_ne.
Qed.

(** X2. Whatever is called or fired, in whatever order, every element
    of the page keeps every attribute other than [class] (its [id] and
    its [data-val] reading among them), and the controller keeps its
    handles: the controller writes classes and texts, nothing else. *)
Theorem operations_keep_attributes w ops :
  (∀ k name, is_Some (nodes (document w) !! k) → name ≠ "class" →
     attribute_of (run ops w) k name = attribute_of w k name)
  ∧ (∀ k, is_Some (nodes (document w) !! k) →
       data_val (run ops w) k = data_val w k)
  ∧ handles (this (run ops w)) = handles (this w).
Proof.
  assert ((∀ k name, name ≠ "class" →
             attribute_of (run ops w) k name = attribute_of w k name)
          ∧ (∀ k, data_val (run ops w) k = data_val w k)
          ∧ handles (this (run ops w)) = handles (this w)) as (Hatt & Hdv & Hh).
  { apply (run_preserves
             (λ w', (∀ k name, name ≠ "class" →
                       attribute_of w' k name = attribute_of w k name)
                    ∧ (∀ k, data_val w' k = data_val w k)
                    ∧ handles (this w') = handles (this w))); try done.
    intros w' (Hatt & Hdv & Hh). repeat split.
    - intros k name Hne. by rewrite attribute_of_rendered, Hatt.
    - intros k. by rewrite <- render_eq, data_val_render.
    - done. }
  repeat split; auto.
Qed.

Lemma operations_keep_attributes_witness :
  (is_Some (nodes (document (sample_world false)) !! 4)
   ∧ "data-val" ≠ "class")
  ∧ attribute_of (run [OpToggle; OpClick 0; OpRender] (sample_world false))
      4 "data-val"
    = Some (Some "23.5").
Proof.
  assert (is_Some (nodes (document (sample_world false)) !! 4)) as Hk.
  { vm_compute. by eexists. }
  split; [by split|].
  destruct (operations_keep_attributes (sample_world false)
              [OpToggle; OpClick 0; OpRender]) as (H & _).
  rewrite H; [by vm_compute | exact Hk | done].
Defined.

(** ** The button style, and where [updateUI] stops *)

(** X1. With the button bound, [updateUI] gives it the style of the
    current state, emerald when connected and rose when not, however many
    of the later surfaces are missing; the two styles differ. *)
Theorem render_button_style w b :
  indicatorBtn (this w) = Some b → in_page w (Some b) = true →
  pulseRing (this w) ≠ Some b →
  button_class (render w)
  = Some (if isConnected (this w) then online_style else offline_style)
  ∧ online_style ≠ offline_style.
Proof.
  intros Hb Hin Hr. split; [|done].
  apply in_page_lookup in Hin as [el Hel].
  unfold button_class. rewrite this_render, Hb. simpl.
  rewrite class_of_render, Hel. simpl. f_equal.
  apply className_written. simpl.
  unfold class_written, hits. rewrite Hb.
  rewrite (bool_decide_eq_false_2 (pulseRing (this w) = Some b)) by done.
  by rewrite andb_false_r, (bool_decide_eq_true_2 (Some b = Some b)).
Qed.

Lemma render_button_style_witness :
  (indicatorBtn (this (sample_world true)) = Some 0
   ∧ in_page (sample_world true) (Some 0) = true
   ∧ pulseRing (this (sample_world true)) ≠ Some 0)
  ∧ button_class (render (sample_world true)) = Some online_style.
Proof.
  split; [repeat split; by vm_compute|].
  apply (render_button_style (sample_world true) 0); by vm_compute.
Defined.

(** X3. [updateUI] stops at the first handle that is [null]. Without the
    button it throws before it has written anything: the page is as it
    was. With the button but without the icon it throws after the button
    style: no text on the page has changed, and no element but the
    button has. *)
Theorem render_stops_at_first_null w :
  (indicatorBtn (this w) = None →
     (updateUI w).1 = Throw TypeError ∧ document (render w) = document w)
  ∧ (bound (indicatorBtn (this w)) = true → indicatorIcon (this w) = None →
     (updateUI w).1 = Throw TypeError
     ∧ (∀ k, text_of (render w) k = text_of w k)
     ∧ (∀ k, hits (indicatorBtn (this w)) k = false →
             nodes (document (render w)) !! k = nodes (document w) !! k)).
Proof.
  split.
  - intros Hb. rewrite updateUI_spec, render_eq. simpl.
    unfold all_bound. rewrite Hb. simpl. split; [done|].
    apply document_eq; try done. simpl.
    apply list_eq; intros k. rewrite list_lookup_imap.
    destruct (nodes (document w) !! k) as [el|]; simpl; [|done].
    unfold rendered, class_written, text_written, all_bound, hits.
    rewrite Hb. simpl. by rewrite apply_patch_none.
  - intros Hb Hi. rewrite updateUI_spec. simpl.
    assert (all_bound (this w) = false) as Hall.
    { unfold all_bound. by rewrite Hb, Hi. }
    rewrite Hall. split; [done|]. split.
    + intros k. rewrite text_of_render. unfold text_of.
      destruct (nodes (document w) !! k) as [el|]; simpl; [|done].
      unfold rendered, apply_patch, text_written, hits. simpl.
      by rewrite Hall, Hb, Hi.
    + intros k Hk. rewrite render_eq, rendered_world_lookup.
      destruct (nodes (document w) !! k) as [el|]; simpl; [|done].
      unfold rendered, class_written, text_written, hits in *.
      rewrite Hall, Hb, Hi, Hk. simpl. by rewrite apply_patch_none.
Qed.

Lemma render_stops_at_first_null_witness :
  (indicatorBtn (this (constructor (page_without_button loading)).2) = None
   ∧ document (render (constructor (page_without_button loading)).2)
     = document (constructor (page_without_button loading)).2)
  ∧ ((bound (indicatorBtn (this (constructor (fresh_page (take 1 sample_nodes ++ drop 2 sample_nodes) loading)).2)) = true
      ∧ indicatorIcon (this (constructor (fresh_page (take 1 sample_nodes ++ drop 2 sample_nodes) loading)).2) = None)
     ∧ (updateUI (constructor (fresh_page (take 1 sample_nodes ++ drop 2 sample_nodes) loading)).2).1
       = Throw TypeError).
Proof.
  split.
  - split; [by vm_compute|].
    destruct (render_stops_at_first_null
                (constructor (page_without_button loading)).2) as [H _].
    apply H. by vm_compute.
  - split; [split; by vm_compute|].
    destruct (render_stops_at_first_null
                (constructor (fresh_page (take 1 sample_nodes ++ drop 2 sample_nodes) loading)).2)
      as [_ H].
    apply H; by vm_compute.
Defined.

(** X8. [handleIndicatorClick] throws exactly when one of the four
    handles is [null], and what it throws is the [TypeError] of
    [updateUI]; the connection state has been inverted by then, and stays
    inverted. *)
Theorem toggle_throws_iff w :
  ((handleIndicatorClick w).1 = Throw TypeError ↔ all_bound (this w) = false)
  ∧ ((handleIndicatorClick w).1 = Normal () ↔ all_bound (this w) = true)
  ∧ (all_bound (this w) = false →
       isConnected (this (toggle w)) = negb (isConnected (this w))).
Proof.
  rewrite handleIndicatorClick_spec, updateUI_spec, toggle_eq. simpl.
  change (all_bound (set_isConnected (negb (isConnected (this w))) (this w)))
    with (all_bound (this w)).
  destruct (all_bound (this w)); repeat split; done.
Qed.

Lemma toggle_throws_iff_witness :
  all_bound (this (constructor (page_without_ring loading)).2) = false
  ∧ isConnected (this (toggle (constructor (page_without_ring loading)).2))
    = true.
Proof.
  split; [by vm_compute|].
  destruct (toggle_throws_iff (constructor (page_without_ring loading)).2)
    as (_ & _ & H).
  apply H. by vm_compute.
Defined.

(** ** A page with a surface missing *)

Lemma rendered_unbound_other a k el :
  all_bound a = false →
  hits (indicatorBtn a) k = false → hits (indicatorIcon a) k = false →
  hits (indicatorText a) k = false →
  rendered a k el = el.
Proof.
  intros Hall Hb Hi Ht.
  unfold rendered, class_written, text_written. rewrite Hall, Hb, Hi, Ht.
  rewrite !andb_false_r. simpl.
  destruct (bound (indicatorBtn a) && bound (indicatorIcon a)
            && bound (indicatorText a) && hits (pulseRing a) k) eqn:Hr.
  - exfalso. unfold all_bound in Hall. unfold hits in Hr.
    apply andb_true_iff in Hr as [Hr Hk%bool_decide_eq_true].
    rewrite Hr, Hk in Hall. done.
  - apply apply_patch_none.
Qed.

(** X11. On a page where one of the four single surfaces is missing, no
    sensor display is ever updated: whatever is called or fired, every
    element other than the button, the icon and the label stays exactly
    as it was. *)
Theorem missing_surface_freezes_sensors w ops k :
  all_bound (this w) = false →
  hits (indicatorBtn (this w)) k = false →
  hits (indicatorIcon (this w)) k = false →
  hits (indicatorText (this w)) k = false →
  nodes (document (run ops w)) !! k = nodes (document w) !! k.
Proof.
  intros Hall Hb Hi Ht.
  apply (run_preserves
           (λ w', handles (this w') = handles (this w)
                  ∧ nodes (document w') !! k = nodes (document w) !! k));
    try done.
  intros w' [Hh Hk]. split; [done|].
  rewrite rendered_world_lookup, Hk.
  destruct (nodes (document w) !! k) as [el|]; simpl; [|done].
  f_equal. unfold handles in Hh. injection Hh as Hhb Hhi Hht Hhr Hhs.
  apply rendered_unbound_other.
  - unfold all_bound in *. by rewrite Hhb, Hhi, Hht, Hhr.
  - by rewrite Hhb.
  - by rewrite Hhi.
  - by rewrite Hht.
Qed.

Lemma missing_surface_freezes_sensors_witness :
  all_bound (this (constructor (page_without_ring loading)).2) = false
  ∧ text_of (run [OpContentLoaded; OpClick 0; OpRender; OpToggle]
               (constructor (page_without_ring loading)).2) 3
    = Some "--".
Proof.
  split; [by vm_compute|].
  unfold text_of.
  rewrite (missing_surface_freezes_sensors
             (constructor (page_without_ring loading)).2
             [OpContentLoaded; OpClick 0; OpRender; OpToggle] 3);
    by vm_compute.
Defined.

(** ** Clicks *)

Lemma run_app ops ops' w : run (ops ++ ops') w = run ops' (run ops w).
Proof. unfold run. apply foldl_app. Qed.

Lemma dispatch_click_own path w :
  own_listeners w → NoDup path →
  dispatch_click path w
  = if existsb (hits (indicatorBtn (this w))) path then toggle w else w.
Proof.
  intros Hown Hnd. revert w Hown.
  induction Hnd as [|n path Hn Hnd IH]; intros w Hown; [done|].
  change (dispatch_click (n :: path) w)
    with (dispatch_click path (click n w)).
  rewrite click_own by done. simpl.
  destruct (hits (indicatorBtn (this w)) n) eqn:Hhit; simpl.
  - destruct (step_state w OpToggle Hown) as [Hown' Hthis]. simpl in *.
    rewrite IH by done. rewrite Hthis. simpl.
    destruct (existsb (hits (indicatorBtn (this w))) path) eqn:Hex; [|done].
    apply existsb_exists in Hex as (m & Hm & Hhm).
    apply bool_decide_eq_true in Hhit, Hhm.
    assert (m = n) as -> by congruence.
    by apply list_elem_of_In in Hm.
  - by apply IH.
Qed.

(** X6. Once the controller has been built, and whatever has happened
    since, a click of the user is one toggle when the indicator button
    is on its propagation path (the button itself was clicked, or an
    element inside it), and changes nothing otherwise: the controller
    never has a click listener but the one on the button. *)
Theorem dispatch_click_toggles_once ns rs ops path :
  NoDup path →
  dispatch_click path (run ops (constructor (fresh_page ns rs)).2)
  = if existsb (hits (getElementById "indicatorBtn" (fresh_page ns rs))) path
    then toggle (run ops (constructor (fresh_page ns rs)).2)
    else run ops (constructor (fresh_page ns rs)).2.
Proof.
  intros Hnd.
  destruct (run_state ops _ (constructor_own ns rs)) as [Hown Hthis].
  rewrite dispatch_click_own by done. rewrite Hthis, constructor_this. done.
Qed.

Lemma dispatch_click_toggles_once_witness :
  NoDup [1; 0]
  ∧ isConnected
      (this (dispatch_click [1; 0]
               (run [OpRender] (constructor (fresh_page sample_nodes complete)).2)))
    = true.
Proof.
  assert (NoDup [1; 0]) as Hnd.
  { by apply (bool_decide_unpack _); vm_compute. }
  split; [exact Hnd|].
  rewrite (dispatch_click_toggles_once sample_nodes complete [OpRender] [1; 0] Hnd).
  by vm_compute.
Defined.

(** X9. [setupEventListeners] is not idempotent: called again on a built
    controller it adds a second click listener, and a click on the button
    then toggles twice, so that the connection state ends where it was,
    after two renders. *)
Theorem second_setup_doubles_click ns rs b :
  getElementById "indicatorBtn" (fresh_page ns rs) = Some b →
  clickListeners
    (document (setupEventListeners (constructor (fresh_page ns rs)).2).2)
  = [(b, BoundHandleIndicatorClick); (b, BoundHandleIndicatorClick)]
  ∧ click b (setupEventListeners (constructor (fresh_page ns rs)).2).2
    = toggle (toggle (setupEventListeners (constructor (fresh_page ns rs)).2).2)
  ∧ isConnected
      (this (click b (setupEventListeners (constructor (fresh_page ns rs)).2).2))
    = isConnected (this (constructor (fresh_page ns rs)).2)
  ∧ calls (click b (setupEventListeners (constructor (fresh_page ns rs)).2).2)
    = calls (constructor (fresh_page ns rs)).2
      ++ [CallHandleIndicatorClick; CallUpdateUI;
          CallHandleIndicatorClick; CallUpdateUI].
Proof.
  intros Hb. pose proof (constructor_own ns rs) as [Hkl _].
  pose proof (constructor_this (fresh_page ns rs)) as Hthis.
  set (w := (constructor (fresh_page ns rs)).2) in *.
  rewrite setupEventListeners_spec. simpl.
  unfold button_listener in *. rewrite Hthis in *. simpl in Hkl.
  rewrite Hkl. simpl. rewrite Hb. simpl. split; [done|].
  assert (click b (with_click
                     [(b, BoundHandleIndicatorClick);
                      (b, BoundHandleIndicatorClick)] w)
          = toggle (toggle (with_click
                              [(b, BoundHandleIndicatorClick);
                               (b, BoundHandleIndicatorClick)] w))) as ->.
  { unfold click. simpl. rewrite !filter_cons, filter_nil. simpl.
    by destruct (decide (b = b)). }
  split; [done|]. rewrite !toggle_eq. simpl. split.
  - by rewrite Hthis.
  - by rewrite <- !app_assoc.
Qed.

Lemma second_setup_doubles_click_witness :
  getElementById "indicatorBtn" (fresh_page sample_nodes complete) = Some 0
  ∧ isConnected
      (this (click 0 (setupEventListeners
                        (constructor (fresh_page sample_nodes complete)).2).2))
    = false.
Proof.
  split; [by vm_compute|].
  destruct (second_setup_doubles_click sample_nodes complete 0)
    as (_ & _ & H & _); [by vm_compute|].
  exact H.
Defined.

(** ** Start-up on any page *)

(** X5. On any page, whatever surfaces it lacks, building the controller
    and the end of parsing amount to one call of [updateUI] on the new
    controller, in the state Disconnected; if that call throws inside
    the DOMContentLoaded listener, nothing else is lost: the page is no
    longer loading and the click listener is in place. *)
Theorem startup_renders_once ns rs :
  calls (startup (fresh_page ns rs)) = [CallUpdateUI]
  ∧ this (startup (fresh_page ns rs)) = new_app (fresh_page ns rs)
  ∧ isConnected (this (startup (fresh_page ns rs))) = false
  ∧ nodes (document (startup (fresh_page ns rs)))
    = imap (rendered (new_app (fresh_page ns rs))) ns
  ∧ readyState (document (startup (fresh_page ns rs))) ≠ loading
  ∧ clickListeners (document (startup (fresh_page ns rs)))
    = button_listener (new_app (fresh_page ns rs)).
Proof.
  unfold startup. rewrite constructor_spec, initialize_spec. simpl.
  destruct (decide (rs = loading)) as [->|Hrs]; simpl.
  - rewrite fire_loading by done. simpl. by rewrite updateUI_spec.
  - rewrite fire_not_loading; by rewrite updateUI_spec.
Qed.

(** ** The page always shows the state *)

Lemma getElementById_distinct id id' d n :
  id ≠ id' → getElementById id d = Some n → getElementById id' d ≠ Some n.
Proof.
  unfold getElementById. intros Hne H H'.
  apply fmap_Some in H as [[j el] [H Hj]], H' as [[j' el'] [H' Hj']].
  simpl in *. subst j j'.
  apply list_find_Some in H as (Hel & Hid & _), H' as (Hel' & Hid' & _).
  congruence.
Qed.

(** A page that a further [updateUI] would leave as it is. *)
Lemma rendered_world_settled w :
  imap (rendered (this (rendered_world w))) (nodes (document (rendered_world w)))
  = nodes (document (rendered_world w)).
Proof. by apply (render_after_render w (rendered_world w)). Qed.

Lemma step_not_loading w op :
  readyState (document w) ≠ loading →
  readyState (document (step w op)) ≠ loading.
Proof.
  intros Hrs. destruct op as [| | |n|]; simpl.
  - by rewrite render_eq.
  - rewrite initialize_spec, decide_False by done. by rewrite updateUI_spec.
  - by rewrite toggle_eq.
  - unfold click. by rewrite run_listeners_readyState.
  - apply fire_readyState.
Qed.

Lemma step_settled w op :
  readyState (document w) ≠ loading → own_listeners w →
  imap (rendered (this w)) (nodes (document w)) = nodes (document w) →
  imap (rendered (this (step w op))) (nodes (document (step w op)))
  = nodes (document (step w op)).
Proof.
  intros Hrs Hown Hw. destruct op as [| | |n|]; simpl.
  - rewrite render_eq. apply rendered_world_settled.
  - rewrite initialize_spec, decide_False by done. rewrite updateUI_spec.
    apply rendered_world_settled.
  - rewrite toggle_eq. apply (rendered_world_settled (flipped w)).
  - rewrite click_own by done.
    destruct (hits (indicatorBtn (this w)) n); [|done].
    rewrite toggle_eq. apply (rendered_world_settled (flipped w)).
  - by rewrite fire_not_loading.
Qed.

Lemma run_settled ops w :
  readyState (document w) ≠ loading → own_listeners w →
  imap (rendered (this w)) (nodes (document w)) = nodes (document w) →
  imap (rendered (this (run ops w))) (nodes (document (run ops w)))
  = nodes (document (run ops w)).
Proof.
  revert w. induction ops as [|op ops IH]; intros w Hrs Hown Hw; [done|].
  change (run (op :: ops) w) with (run ops (step w op)).
  apply IH.
  - by apply step_not_loading.
  - by apply step_state.
  - by apply step_settled.
Qed.

Lemma run_length ops w :
  length (nodes (document (run ops w))) = length (nodes (document w)).
Proof.
  apply (run_preserves
           (λ w', length (nodes (document w')) = length (nodes (document w))));
    try done.
  intros w' Hw'. simpl. by rewrite length_imap.
Qed.

Lemma startup_run ns rs ops :
  run ops (startup (fresh_page ns rs))
  = run (OpContentLoaded :: ops) (constructor (fresh_page ns rs)).2.
Proof. done. Qed.

Lemma startup_settled ns rs :
  readyState (document (startup (fresh_page ns rs))) ≠ loading
  ∧ own_listeners (startup (fresh_page ns rs))
  ∧ imap (rendered (this (startup (fresh_page ns rs))))
      (nodes (document (startup (fresh_page ns rs))))
    = nodes (document (startup (fresh_page ns rs))).
Proof.
  split; [apply fire_readyState|]. split.
  - apply (step_state _ OpContentLoaded), constructor_own.
  - destruct (startup_fresh ns rs) as (w0 & -> & _).
    rewrite render_eq. apply rendered_world_settled.
Qed.

Lemma new_app_well_bound ns rs w c :
  all_bound (new_app (fresh_page ns rs)) = true →
  this w = set_isConnected c (new_app (fresh_page ns rs)) →
  length (nodes (document w)) = length ns →
  well_bound w = true.
Proof.
  intros Hb Hthis Hlen. unfold well_bound. rewrite Hthis. simpl.
  change (all_bound (set_isConnected c (new_app (fresh_page ns rs))))
    with (all_bound (new_app (fresh_page ns rs))).
  rewrite Hb. simpl.
  assert (∀ id, in_page w (getElementById id (fresh_page ns rs)) = true) as Hin.
  { intros id. destruct (getElementById id (fresh_page ns rs)) as [n|] eqn:Hn;
      [|done].
    simpl. apply bool_decide_eq_true. rewrite Hlen.
    by apply (getElementById_in_page id (fresh_page ns rs)). }
  rewrite !Hin. simpl. apply forallb_forall. intros k Hk.
  apply list_elem_of_In, querySelectorAll_class_elem in Hk as (el & Hel & _).
  simpl. apply bool_decide_eq_true. rewrite Hlen.
  by apply lookup_lt_Some in Hel.
Qed.

(** X7. On a page with the four single surfaces, the icon and the label
    apart from the sensor displays, the page shows the connection state
    at every moment after start-up: whatever has been called, clicked or
    fired since, every sensor display shows its [data-val] when connected
    and 0 when not, and the label, the icon, the ring and the button
    carry the text and the style of the current state. *)
Theorem presentation_follows_state ns rs ops :
  all_bound (new_app (fresh_page ns rs)) = true →
  surfaces_apart (new_app (fresh_page ns rs)) = true →
  (∀ k, k ∈ sensorValues (this (run ops (startup (fresh_page ns rs)))) →
     text_of (run ops (startup (fresh_page ns rs))) k
     = if isConnected (this (run ops (startup (fresh_page ns rs))))
       then to_DOMString <$> data_val (run ops (startup (fresh_page ns rs))) k
       else Some "0")
  ∧ label_text (run ops (startup (fresh_page ns rs)))
    = Some (if isConnected (this (run ops (startup (fresh_page ns rs))))
            then "Online" else "Offline")
  ∧ icon_text (run ops (startup (fresh_page ns rs)))
    = Some (if isConnected (this (run ops (startup (fresh_page ns rs))))
            then "wifi" else "wifi_off")
  ∧ pulse_class (run ops (startup (fresh_page ns rs)))
    = Some (if isConnected (this (run ops (startup (fresh_page ns rs))))
            then "hidden" else pulse_style)
  ∧ button_class (run ops (startup (fresh_page ns rs)))
    = Some (if isConnected (this (run ops (startup (fresh_page ns rs))))
            then online_style else offline_style).
Proof.
  intros Hb Ha.
  destruct (startup_settled ns rs) as (Hrs & Hown & Hset).
  pose proof (run_settled ops _ Hrs Hown Hset) as Hfix.
  pose proof (run_length ops (startup (fresh_page ns rs))) as Hlen.
  destruct (startup_fresh ns rs) as (w0 & Hw0 & _ & Hns & _).
  assert (length (nodes (document (startup (fresh_page ns rs)))) = length ns)
    as Hlen0.
  { rewrite Hw0, render_eq. simpl. by rewrite length_imap, Hns. }
  rewrite Hlen0 in Hlen. clear w0 Hw0 Hns Hlen0.
  destruct (run_state (OpContentLoaded :: ops) _ (constructor_own ns rs))
    as [_ Hthis].
  rewrite <- startup_run, constructor_this in Hthis. simpl in Hthis.
  set (w := run ops (startup (fresh_page ns rs))) in *.
  set (a := new_app (fresh_page ns rs)) in *.
  pose proof (new_app_well_bound ns rs w _ Hb Hthis Hlen) as Hwb.
  assert (surfaces_apart (this w) = true) as Hsa by by rewrite Hthis.
  assert (document (render w) = document w) as Hdoc.
  { rewrite render_eq. by apply document_eq. }
  destruct (render_table w Hwb Hsa) as (Hs & Hl & Hi & Hr).
  unfold label_text, icon_text, pulse_class, text_of, class_of, data_val in *.
  rewrite this_render, Hdoc in *.
  repeat split.
  - done.
  - rewrite Hl. by destruct (isConnected (this w)).
  - rewrite Hi. by destruct (isConnected (this w)).
  - rewrite Hr. by destruct (isConnected (this w)).
  - unfold button_class, class_of.
    destruct (well_bound_inv w Hwb)
      as (_ & (b & i & t & r & Hbb & _ & _ & Hbr & [eb Heb] & _) & _).
    rewrite Hbb. simpl. rewrite <- Hfix, list_lookup_imap, Heb. simpl.
    f_equal.
    assert (class_written (this w) b = Some (style (isConnected (this w))))
      as Hcw.
    { unfold class_written, hits. rewrite Hbb, Hbr.
      rewrite (bool_decide_eq_false_2 (Some r = Some b)).
      - by rewrite andb_false_r, (bool_decide_eq_true_2 (Some b = Some b)).
      - intros [= ->]. rewrite Hthis in Hbb, Hbr. simpl in Hbb, Hbr.
        by apply (getElementById_distinct "indicatorBtn" "pulseRing"
                    (fresh_page ns rs) b). }
    transitivity (style (isConnected (this w)));
      [by apply className_written | by destruct (isConnected (this w))].
Qed.

Lemma presentation_follows_state_witness :
  (all_bound (new_app (fresh_page sample_nodes loading)) = true
   ∧ surfaces_apart (new_app (fresh_page sample_nodes loading)) = true)
  ∧ label_text (run [OpClick 0; OpRender; OpClick 4]
                  (startup (fresh_page sample_nodes loading)))
    = Some "Online".
Proof.
  split; [split; by vm_compute|].
  destruct (presentation_follows_state sample_nodes loading
              [OpClick 0; OpRender; OpClick 4]) as (_ & H & _);
    [by vm_compute | by vm_compute |].
  exact H.
Defined.

(** ** What is written where *)

Lemma same_handles_written a a' k :
  handles a' = handles a →
  (hits (indicatorBtn a) k = false → hits (pulseRing a) k = false →
     class_written a' k = None)
  ∧ (hits (indicatorIcon a) k = false → hits (indicatorText a) k = false →
     k ∉ sensorValues a → text_written a' k = None).
Proof.
  unfold handles. intros [= Hb Hi Ht Hr Hs]. split.
  - intros Hkb Hkr. unfold class_written. rewrite Hb, Hr, Hkb, Hkr.
    by rewrite andb_false_r.
  - intros Hki Hkt Hks. unfold text_written. rewrite Hi, Ht, Hs, Hki, Hkt.
    rewrite (bool_decide_eq_false_2 (k ∈ sensorValues a)) by done.
    by rewrite !andb_false_r.
Qed.

(** X10. The controller writes to its own surfaces only, and to each its
    own property: whatever is called or fired, no element but the button
    and the ring ever has its class changed, and no element but the
    icon, the label and the sensor displays ever has its text changed. *)
Theorem operations_touch_surfaces_only w ops k :
  (hits (indicatorBtn (this w)) k = false →
   hits (pulseRing (this w)) k = false →
     class_of (run ops w) k = class_of w k)
  ∧ (hits (indicatorIcon (this w)) k = false →
     hits (indicatorText (this w)) k = false →
     k ∉ sensorValues (this w) →
       text_of (run ops w) k = text_of w k).
Proof.
  split.
  - intros Hkb Hkr.
    apply (run_preserves
             (λ w', handles (this w') = handles (this w)
                    ∧ class_of w' k = class_of w k)); try done.
    intros w' [Hh Hk]. split; [done|]. rewrite <- Hk.
    rewrite <- render_eq, class_of_render. unfold class_of.
    destruct (nodes (document w') !! k) as [el|]; simpl; [|done].
    destruct (same_handles_written (this w) (this w') k Hh) as [Hc _].
    unfold rendered. by rewrite Hc.
  - intros Hki Hkt Hks.
    apply (run_preserves
             (λ w', handles (this w') = handles (this w)
                    ∧ text_of w' k = text_of w k)); try done.
    intros w' [Hh Hk]. split; [done|]. rewrite <- Hk.
    rewrite <- render_eq, text_of_render. unfold text_of.
    destruct (nodes (document w') !! k) as [el|]; simpl; [|done].
    destruct (same_handles_written (this w) (this w') k Hh) as [_ Ht].
    unfold rendered. by rewrite Ht.
Qed.

Lemma operations_touch_surfaces_only_witness :
  ((hits (indicatorBtn (this (sample_world false))) 4 = false
    ∧ hits (pulseRing (this (sample_world false))) 4 = false)
   ∧ class_of (run [OpToggle; OpRender; OpClick 0] (sample_world false)) 4
     = Some "sensor-val text-xl")
  ∧ ((hits (indicatorIcon (this (sample_world false))) 0 = false
      ∧ hits (indicatorText (this (sample_world false))) 0 = false
      ∧ 0 ∉ sensorValues (this (sample_world false)))
     ∧ text_of (run [OpToggle; OpRender; OpClick 0] (sample_world false)) 0
       = Some "").
Proof.
  assert (0 ∉ sensorValues (this (sample_world false))) as Hs.
  { by apply (bool_decide_unpack _); vm_compute. }
  split.
  - split; [split; by vm_compute|].
    destruct (operations_touch_surfaces_only (sample_world false)
                [OpToggle; OpRender; OpClick 0] 4) as [H _].
    rewrite H; by vm_compute.
  - split; [repeat split; try by vm_compute; exact Hs|].
    destruct (operations_touch_surfaces_only (sample_world false)
                [OpToggle; OpRender; OpClick 0] 0) as [_ H].
    rewrite H; [by vm_compute | by vm_compute | by vm_compute | exact Hs].
Defined.
